(** * check_notebooks.py: a shallow embedding and its verified properties

    The script runs (or, with [--check], inspects) Jupyter notebooks and
    reports which of them raise errors.  This file embeds its three
    functions, [run_notebook], [check_saved_outputs] and [main], together
    with the parts of the Python runtime they rely on, and proves the
    properties the specification states about them.

    Conventions of the embedding.
    - A Python [str] is the list of its code points ([pystr]); [len],
      slicing, [in], [split], [strip] and [join] act on that list.
    - A value read by [json.load] is a [json] tree; a dict is the list of
      its items in insertion order.
    - An exception is a value of [exn]; a function that can raise returns
      [exn + A].
    - The operating system (sub-processes, files, directory scan) is a
      [Runtime] over an abstract [World]; calls that change the world
      return the new one.
    - What the script does to the outside is recorded as a list of
      [event]s: text written to standard output, sub-processes launched,
      files opened.
    - Standard output is UTF-8: everything can be written to it but a
      lone surrogate, on which [print] raises [UnicodeEncodeError].  The
      strings of a JSON document may hold lone surrogates; command-line
      arguments, file names and the decoded stderr of a sub-process are
      taken to hold none, so only the lines that print [ename] and
      [evalue] can raise.
    - The system is POSIX.  The order of [pathlib] paths and the
      exception raised by slicing a dict differ between Python versions;
      the runtime says which one applies ([python_3_12]). *)

From Stdlib Require Import List NArith ZArith Arith Bool Lia.
From Stdlib Require Import Strings.String Strings.Ascii.
From Stdlib Require Import Numbers.DecimalString.
From Stdlib Require Import Sorting.Sorted Sorting.Permutation.
Import ListNotations.

Set Implicit Arguments.
Set Warnings "-register-all".
Local Open Scope list_scope.

(** ** Python strings *)

Module PyStr.

(** A code point, 0 to 0x10FFFF. *)
Definition codepoint := N.

Definition pystr := list codepoint.

(** An ASCII literal of the source, as a Python string. *)
Definition py (s : string) : pystr :=
  List.map N_of_ascii (list_ascii_of_string s).

Definition LF : codepoint := 10%N.

(** [a == b] on strings. *)
Fixpoint eqb (a b : pystr) : bool :=
  match a, b with
  | [], [] => true
  | x :: a', y :: b' => N.eqb x y && eqb a' b'
  | _, _ => false
  end.

(** [a < b] on sequences (a str, a list): decided by [<] at the first
    position where the two differ by [==], a proper prefix first. *)
Section Lex.

Variable A : Type.
Variable eq lt : A -> A -> bool.

Fixpoint lex_ltb (a b : list A) : bool :=
  match a, b with
  | _, [] => false
  | [], _ :: _ => true
  | x :: a', y :: b' => if eq x y then lex_ltb a' b' else lt x y
  end.

End Lex.

(** [a < b] on strings, by code point. *)
Definition ltb (a b : pystr) : bool := lex_ltb N.eqb N.ltb a b.

(** [s.startswith(prefix)]. *)
Fixpoint startswith (s prefix : pystr) {struct prefix} : bool :=
  match prefix, s with
  | [], _ => true
  | _ :: _, [] => false
  | p :: prefix', x :: s' => N.eqb x p && startswith s' prefix'
  end.

(** [sub in s]: [sub] occurs in [s] as a contiguous run. *)
Fixpoint contains (sub s : pystr) : bool :=
  startswith s sub ||
  match s with
  | [] => false
  | _ :: s' => contains sub s'
  end.

(** [s.split(sep)] for a one-character separator. *)
Fixpoint split (sep : codepoint) (s : pystr) : list pystr :=
  match s with
  | [] => [[]]
  | x :: s' =>
      if N.eqb x sep then [] :: split sep s'
      else match split sep s' with
           | [] => [[x]]
           | field :: fields => (x :: field) :: fields
           end
  end.

(** [sep.join(parts)]. *)
Fixpoint join (sep : pystr) (parts : list pystr) : pystr :=
  match parts with
  | [] => []
  | [p] => p
  | p :: rest => p ++ sep ++ join sep rest
  end.

(** [str.isspace] on one code point: the characters [strip()] removes. *)
Definition isspace (c : codepoint) : bool :=
  ((9 <=? c) && (c <=? 13) || (28 <=? c) && (c <=? 32)
   || (c =? 133) || (c =? 160) || (c =? 5760)
   || (8192 <=? c) && (c <=? 8202)
   || (c =? 8232) || (c =? 8233) || (c =? 8239) || (c =? 8287)
   || (c =? 12288))%N.

(** [s.lstrip()]. *)
Fixpoint lstrip (s : pystr) : pystr :=
  match s with
  | [] => []
  | c :: s' => if isspace c then lstrip s' else s
  end.

(** [s.rstrip()]. *)
Definition rstrip (s : pystr) : pystr := rev (lstrip (rev s)).

(** [s.strip()]. *)
Definition strip (s : pystr) : pystr := rstrip (lstrip s).

(** [l[i:j]] for [0 <= i <= j], on a str or a list. *)
Definition slice {A : Type} (l : list A) (i j : nat) : list A :=
  firstn (j - i) (skipn i l).

(** [str(n)] for a non-negative int. *)
Definition of_nat (n : nat) : pystr :=
  py (NilZero.string_of_uint (Nat.to_uint n)).

End PyStr.
Export PyStr.

(** ** pathlib paths (POSIX flavour) *)

Definition SLASH : codepoint := 47%N.
Definition DOT : codepoint := 46%N.

(** A parsed path: the root (empty, [/] or [//]) and the components after
    it.  The drive is always empty on POSIX. *)
Record Path := { root : pystr; tail : list pystr }.

(** [posixpath.splitroot(p)], without the (empty) drive. *)
Definition splitroot (p : pystr) : pystr * pystr :=
  match p with
  | a :: rest1 =>
      if negb (N.eqb a SLASH) then ([], p)
      else match rest1 with
           | b :: rest2 =>
               if negb (N.eqb b SLASH) then ([SLASH], rest1)
               else match rest2 with
                    | c :: _ =>
                        if N.eqb c SLASH then ([SLASH], rest1)
                        else ([SLASH; SLASH], rest2)
                    | [] => ([SLASH; SLASH], rest2)
                    end
           | [] => ([SLASH], rest1)
           end
  | [] => ([], p)
  end.

(** [Path(arg)]: [PurePath._parse_path]. *)
Definition Path_of (arg : pystr) : Path :=
  match arg with
  | [] => {| root := []; tail := [] |}
  | _ =>
      let (rt, rel) := splitroot arg in
      {| root := rt;
         tail := filter (fun x => negb (PyStr.eqb x []) && negb (PyStr.eqb x [DOT]))
                        (split SLASH rel) |}
  end.

(** [str(path)]. *)
Definition path_str (p : Path) : pystr :=
  match root p ++ join [SLASH] (tail p) with
  | [] => [DOT]
  | s => s
  end.

(** [path.name]. *)
Definition name (p : Path) : pystr := last (tail p) [].

(** [path._parts_normcase], the key paths are compared by from CPython
    3.12 on. *)
Definition parts_normcase (p : Path) : list pystr := split SLASH (path_str p).

(** [path._cparts], the key paths are compared by before CPython 3.12:
    the root, when there is one, then the components. *)
Definition cparts (p : Path) : list pystr :=
  match root p with
  | [] => tail p
  | r => r :: tail p
  end.

(** A path as [pathlib] parses it: the root is empty, [/] or [//], and no
    component is empty, is [.] or holds a [/]. *)
Definition is_component (c : pystr) : bool :=
  negb (PyStr.eqb c []) && negb (PyStr.eqb c [DOT]) && negb (existsb (N.eqb SLASH) c).

Definition is_root (r : pystr) : bool :=
  PyStr.eqb r [] || PyStr.eqb r [SLASH] || PyStr.eqb r [SLASH; SLASH].

Definition parsed (p : Path) : bool :=
  is_root (root p) && forallb is_component (tail p).

(** [a < b] on lists of strings. *)
Definition parts_ltb (a b : list pystr) : bool :=
  lex_ltb PyStr.eqb PyStr.ltb a b.

(** ** [sorted] *)

(** [sorted] is stable and compares with [<] only; it is modelled as the
    stable insertion sort, which returns the same list as any other stable
    sort whenever [<] is a strict weak order. *)
Section Sorted.
Variable A : Type.
Variable lt : A -> A -> bool.

Fixpoint insert (x : A) (l : list A) : list A :=
  match l with
  | [] => [x]
  | y :: l' => if lt y x then y :: insert x l' else x :: l
  end.

Definition sorted (l : list A) : list A := fold_right insert [] l.

End Sorted.

(** ** Values read by [json.load], and exceptions *)

Inductive json : Type :=
| JNull
| JBool (b : bool)
| JInt (z : Z)
| JFloat (repr : pystr)
| JStr (s : pystr)
| JList (items : list json)
| JDict (items : list (pystr * json)).

Inductive exn : Type :=
| FileNotFoundError
| PermissionError
| OSError
| UnicodeDecodeError
| UnicodeEncodeError
| JSONDecodeError
| AttributeError
| TypeError
| KeyError.

(** The error monad of a function that can raise. *)
Definition bind {A B : Type} (m : exn + A) (k : A -> exn + B) : exn + B :=
  match m with
  | inl e => inl e
  | inr a => k a
  end.

Notation "x <- m ;; k" := (bind m (fun x => k))
  (at level 61, m at next level, right associativity).

(** [d.get(key, default)] on a dict given by its items; keys of a dict are
    distinct, so the first match is the only one. *)
Fixpoint dict_get (d : list (pystr * json)) (key : pystr) (default : json) : json :=
  match d with
  | [] => default
  | (k, v) :: d' => if PyStr.eqb k key then v else dict_get d' key default
  end.

(** [v.get(key, default)]: only a dict has a [get]. *)
Definition get (v : json) (key : pystr) (default : json) : exn + json :=
  match v with
  | JDict d => inr (dict_get d key default)
  | _ => inl AttributeError
  end.

(** The elements [for x in v] yields: those of a list, the characters of
    a str, the keys of a dict; anything else is not iterable. *)
Definition iter (v : json) : exn + list json :=
  match v with
  | JList l => inr l
  | JStr s => inr (List.map (fun c => JStr [c]) s)
  | JDict d => inr (List.map (fun kv => JStr (fst kv)) d)
  | _ => inl TypeError
  end.

(** [v == s] for a str literal [s]. *)
Definition is_str (v : json) (s : pystr) : bool :=
  match v with
  | JStr t => PyStr.eqb t s
  | _ => false
  end.

(** ** The runtime the script runs on *)

(** What [subprocess.run(..., capture_output=True, text=True)] returns. *)
Record CompletedProcess := { returncode : Z; stderr : pystr }.

Class Runtime (World : Type) := {
  (** [sys.version_info >= (3, 12)] *)
  python_3_12 : bool;
  (** [sys.executable] *)
  executable : pystr;
  (** [subprocess.run(cmd, capture_output=True, text=True)]: the world
      after the call, and the completed process or the exception raised *)
  subprocess_run : World -> list pystr -> World * (exn + CompletedProcess);
  (** [open(path, 'r', encoding='utf-8')] followed by [json.load] *)
  load : World -> Path -> exn + json;
  (** [list(Path(__file__).parent.glob('**/*.ipynb'))] *)
  glob : World -> list Path;
  (** [repr] of a value that is not a str, as an f-string renders it *)
  repr_value : json -> pystr
}.

(** What a run does to the outside, in order. *)
Inductive event : Type :=
| Print (text : pystr)
| Launch (cmd : list pystr)
| Open (path : Path).

(** ** The script *)

Definition CROSS_MARK : codepoint := 10060%N.  (* U+274C *)
Definition CHECK_MARK : codepoint := 10003%N.  (* U+2713 *)

(** One entry of the list [check_saved_outputs] returns:
    [{'cell': i, 'ename': ename, 'evalue': evalue}]. *)
Record descriptor := { cell : nat; ename : json; evalue : json }.

(** The state [main]'s loop carries: the world, the events so far and the
    local variable [all_passed]. *)
Record state (World : Type) :=
  { world : World; trace : list event; all_passed : bool }.

Section Script.

Context {World : Type} {RT : Runtime World}.

(** The key paths are compared by. *)
Definition path_key (p : Path) : list pystr :=
  if python_3_12 then parts_normcase p else cparts p.

(** [a < b] on paths: [PurePath.__lt__]. *)
Definition path_ltb (a b : Path) : bool :=
  parts_ltb (path_key a) (path_key b).

(** [a <= b] as [sorted] sees it: [b < a] does not hold. *)
Definition path_le (a b : Path) : Prop := path_ltb b a = false.

(** The command line [run_notebook] hands to [subprocess.run]. *)
Definition command (path : Path) : list pystr :=
  [ executable; py "-m"; py "jupyter"; py "nbconvert";
    py "--to"; py "notebook";
    py "--execute";
    py "--inplace";
    py "--ExecutePreprocessor.timeout=300";
    path_str path ].

(** The [for i, line in enumerate(lines)] loop of [run_notebook], from
    index [i] on: [rest] is [lines[i:]]. *)
Fixpoint find_error (lines rest : list pystr) (i : nat) (error_msg : pystr) : pystr :=
  match rest with
  | [] => error_msg
  | line :: rest' =>
      if contains (py "Error") line || contains (py "Exception") line
      then join [LF] (slice lines i (i + 3))
      else find_error lines rest' (S i) error_msg
  end.

(** The diagnostic [run_notebook] returns for a non-zero exit status. *)
Definition diagnostic (stderr_text : pystr) : pystr :=
  let error_msg := strip stderr_text in
  let error_msg :=
    if contains (py "CellExecutionError") error_msg
    then let lines := split LF error_msg in
         find_error lines lines 0 error_msg
    else error_msg in
  if 200 <? List.length error_msg then slice error_msg 0 200 else error_msg.

Definition run_notebook (w : World) (path : Path)
  : World * (exn + bool * pystr) :=
  match subprocess_run w (command path) with
  | (w', inr result) =>
      if negb (returncode result =? 0)%Z
      then (w', inr (false, diagnostic (stderr result)))
      else (w', inr (true, []))
  | (w', inl FileNotFoundError) =>
      (w', inr (false,
                py "jupyter not found. Install with: pip install jupyter nbconvert"))
  | (w', inl e) => (w', inl e)
  end.

(** [v[:n]]: a str and a list can be sliced; other values are not
    subscriptable, and a dict is looked up with the slice as the key,
    which is not among the keys from CPython 3.12 on and cannot be hashed
    before. *)
Definition upto (v : json) (n : nat) : exn + json :=
  match v with
  | JStr s => inr (JStr (slice s 0 n))
  | JList l => inr (JList (slice l 0 n))
  | JDict _ => inl (if python_3_12 then KeyError else TypeError)
  | _ => inl TypeError
  end.

(** The inner loop of [check_saved_outputs], over the outputs of cell [i]. *)
Fixpoint check_outputs (i : nat) (outputs : list json) (errors : list descriptor)
  : exn + list descriptor :=
  match outputs with
  | [] => inr errors
  | output :: rest =>
      output_type <- get output (py "output_type") JNull ;;
      if is_str output_type (py "error")
      then en <- get output (py "ename") (JStr (py "Unknown")) ;;
           ev <- get output (py "evalue") (JStr []) ;;
           ev <- upto ev 100 ;;
           check_outputs i rest
             (errors ++ [{| cell := i; ename := en; evalue := ev |}])
      else check_outputs i rest errors
  end.

(** The outer loop of [check_saved_outputs], from cell number [i] on. *)
Fixpoint check_cells (i : nat) (cells : list json) (errors : list descriptor)
  : exn + list descriptor :=
  match cells with
  | [] => inr errors
  | c :: rest =>
      cell_type <- get c (py "cell_type") JNull ;;
      if negb (is_str cell_type (py "code"))
      then check_cells (S i) rest errors
      else outputs <- get c (py "outputs") (JList []) ;;
           outputs <- iter outputs ;;
           errors <- check_outputs i outputs errors ;;
           check_cells (S i) rest errors
  end.

(** [check_saved_outputs] once the document is loaded. *)
Definition inspect (notebook : json) : exn + list descriptor :=
  cells <- get notebook (py "cells") (JList []) ;;
  cells <- iter cells ;;
  check_cells 1 cells [].

Definition check_saved_outputs (w : World) (path : Path) : exn + list descriptor :=
  notebook <- load w path ;;
  inspect notebook.

(** How an f-string renders a value read from the document. *)
Definition str_of (v : json) : pystr :=
  match v with
  | JStr s => s
  | _ => repr_value v
  end.

(** [print(text)] and [print(text, end=' ')]. *)
Definition print (text : pystr) : event := Print (text ++ [LF]).
Definition print_end_space (text : pystr) : event := Print (text ++ py " ").

(** The text of the line printed for one error descriptor. *)
Definition error_text (err : descriptor) : pystr :=
  py "   Cell " ++ of_nat (cell err) ++ py ": " ++ str_of (ename err)
  ++ py ": " ++ str_of (evalue err).

(** The line printed for one error descriptor. *)
Definition error_line (err : descriptor) : event := print (error_text err).

(** A lone surrogate, U+D800 to U+DFFF: a JSON document can hold one in
    a string (written [\ud800]), and standard output, which is UTF-8,
    cannot encode it. *)
Definition is_surrogate (c : codepoint) : bool :=
  ((55296 <=? c) && (c <=? 57343))%N.

(** [print(text)] of text read from a document succeeds. *)
Definition encodable (text : pystr) : bool :=
  forallb (fun c => negb (is_surrogate c)) text.

(** [for err in errors: print(...)]: the lines written, and the
    [UnicodeEncodeError] that left the loop at the first line that
    cannot be encoded, if there is one. *)
Fixpoint print_errors (errors : list descriptor) : list event * option exn :=
  match errors with
  | [] => ([], None)
  | err :: rest =>
      if encodable (error_text err)
      then let (lines, raised) := print_errors rest in (error_line err :: lines, raised)
      else ([], Some UnicodeEncodeError)
  end.

(** The body of [main]'s loop for one notebook: the state after it, and
    the exception that left it, if any. *)
Definition body (check_only : bool) (nb_path : Path) (st : state World)
  : state World * option exn :=
  if check_only then
    let t := trace st ++ [Open nb_path] in
    match check_saved_outputs (world st) nb_path with
    | inl e => ({| world := world st; trace := t; all_passed := all_passed st |}, Some e)
    | inr errors =>
        match errors with
        | _ :: _ =>
            let (lines, raised) := print_errors errors in
            ({| world := world st;
                trace := t ++ [print ([CROSS_MARK] ++ py " " ++ name nb_path ++ py ": "
                                       ++ of_nat (List.length errors) ++ py " error(s)")]
                           ++ lines;
                all_passed := false |}, raised)
        | [] =>
            ({| world := world st;
                trace := t ++ [print ([CHECK_MARK] ++ py " " ++ name nb_path ++ py ": OK")];
                all_passed := all_passed st |}, None)
        end
    end
  else
    let t := trace st ++ [print_end_space (py "  Running " ++ name nb_path ++ py "...");
                          Launch (command nb_path)] in
    match run_notebook (world st) nb_path with
    | (w', inl e) => ({| world := w'; trace := t; all_passed := all_passed st |}, Some e)
    | (w', inr (success, error)) =>
        if success
        then ({| world := w'; trace := t ++ [print [CHECK_MARK]];
                 all_passed := all_passed st |}, None)
        else ({| world := w';
                 trace := t ++ [print [CROSS_MARK]; print (py "    Error: " ++ error)];
                 all_passed := false |}, None)
    end.

(** [for nb_path in ...: body]. *)
Fixpoint for_loop (check_only : bool) (nbs : list Path) (st : state World)
  : state World * option exn :=
  match nbs with
  | [] => (st, None)
  | nb_path :: rest =>
      match body check_only nb_path st with
      | (st', None) => for_loop check_only rest st'
      | (st', Some e) => (st', Some e)
      end
  end.

(** [check_only], from [sys.argv]. *)
Definition check_only_of (argv : list pystr) : bool :=
  existsb (fun a => PyStr.eqb a (py "--check")) argv.

(** [args], from [sys.argv]. *)
Definition args_of (argv : list pystr) : list pystr :=
  filter (fun a => negb (startswith a (py "--"))) (List.tl argv).

(** [notebooks], before it is sorted. *)
Definition notebooks_of (w : World) (argv : list pystr) : list Path :=
  match args_of argv with
  | _ :: _ => List.map Path_of (args_of argv)
  | [] =>
      filter (fun nb => negb (contains (py ".ipynb_checkpoints") (path_str nb)))
             (glob w)
  end.

(** A finished run: the final world, everything the run did, and the
    value [main] returned or the exception that left it. *)
Record run := { final : World; events : list event; result : exn + Z }.

(** The state in which the loop of [main] starts: the mode line is
    printed and [all_passed] is [True]. *)
Definition start (w : World) (argv : list pystr) : state World :=
  let check_only := check_only_of argv in
  let notebooks := notebooks_of w argv in
  let mode := if check_only then py "Checking saved outputs" else py "Running" in
  {| world := w;
     trace := [print (mode ++ py " " ++ of_nat (List.length notebooks)
                      ++ py " notebook(s)..." ++ [LF])];
     all_passed := true |}.

Definition main (w : World) (argv : list pystr) : run :=
  let check_only := check_only_of argv in
  let notebooks := notebooks_of w argv in
  match notebooks with
  | [] =>
      {| final := w; events := [print (py "No notebooks found.")]; result := inr 0%Z |}
  | _ :: _ =>
      match for_loop check_only (sorted path_ltb notebooks) (start w argv) with
      | (st', Some e) =>
          {| final := world st'; events := trace st'; result := inl e |}
      | (st', None) =>
          if all_passed st'
          then {| final := world st';
                  events := trace st' ++ [print []; print (py "All notebooks passed! " ++ [CHECK_MARK])];
                  result := inr 0%Z |}
          else {| final := world st';
                  events := trace st' ++ [print []; print (py "Some notebooks have errors.")];
                  result := inr 1%Z |}
      end
  end.

(** The status the process exits with under [sys.exit(main())]: the value
    returned, or 1 when an exception was not caught. *)
Definition exit_status (r : run) : Z :=
  match result r with
  | inr code => code
  | inl _ => 1%Z
  end.

(** The text written to standard output. *)
Definition stdout (t : list event) : pystr :=
  flat_map (fun e => match e with Print text => text | _ => [] end) t.

(** ** The run, as seen from one notebook *)

(** The run [main w argv] has gone through the notebooks [before] without
    an exception and is in state [st]; [nb] is the next notebook and
    [after] are the ones after it. *)
Definition at_notebook (w : World) (argv : list pystr)
           (before : list Path) (nb : Path) (after : list Path)
           (st : state World) : Prop :=
  sorted path_ltb (notebooks_of w argv) = before ++ nb :: after
  /\ for_loop (check_only_of argv) before (start w argv) = (st, None).

(** The notebook fails in world [w]: the executor returns failure, or the
    inspector returns at least one descriptor. *)
Definition fails (check_only : bool) (w : World) (nb : Path) : Prop :=
  if check_only
  then exists errs, check_saved_outputs w nb = inr errs /\ errs <> []
  else exists w' msg, run_notebook w nb = (w', inr (false, msg)).

(** The notebook passes in world [w]: the executor returns success, or
    the inspector returns no descriptor. *)
Definition passes (check_only : bool) (w : World) (nb : Path) : Prop :=
  if check_only
  then check_saved_outputs w nb = inr []
  else exists w' msg, run_notebook w nb = (w', inr (true, msg)).

(** The event by which a notebook is attempted: its file is opened, or
    the sub-process that executes it is launched. *)
Definition attempt (check_only : bool) (nb : Path) : event :=
  if check_only then Open nb else Launch (command nb).

Definition is_print (e : event) : bool :=
  match e with
  | Print _ => true
  | _ => false
  end.

Definition is_attempt (e : event) : bool := negb (is_print e).

(** The shape of the events of one notebook: in execution mode the
    progress line with the notebook's name, the launch, then printed
    lines only; in inspection mode the opening of the file, then either
    nothing (an exception left the loop) or a status line with the
    notebook's name and further printed lines. *)
Definition block (check_only : bool) (nb : Path) (b : list event) : Prop :=
  exists prints,
    forallb is_print prints = true
    /\ if check_only
       then b = Open nb :: prints
            /\ (prints = []
                \/ exists mark rest more,
                     prints = Print (mark :: py " " ++ name nb ++ py ": " ++ rest) :: more)
       else b = Print (py "  Running " ++ name nb ++ py "... ")
                  :: Launch (command nb) :: prints.

End Script.

(** ** Vocabulary of the properties below *)

(** The test [find_error] applies to each line. *)
Definition is_error_line (line : pystr) : bool :=
  contains (py "Error") line || contains (py "Exception") line.

(** The test of the outer loop of [check_saved_outputs]. *)
Definition is_code_cell (c : json) : bool :=
  match get c (py "cell_type") JNull with
  | inr cell_type => is_str cell_type (py "code")
  | inl _ => false
  end.

(** The list the inner loop runs over in cell [c]. *)
Definition outputs_of (c : json) : exn + list json :=
  outputs <- get c (py "outputs") (JList []) ;;
  iter outputs.

(** The test of the inner loop. *)
Definition is_error_output (output : json) : bool :=
  match get output (py "output_type") JNull with
  | inr output_type => is_str output_type (py "error")
  | inl _ => false
  end.

Section Describe.

Context {World : Type} {RT : Runtime World}.

(** The descriptor built from an error output of cell number [i]. *)
Definition describe (i : nat) (output : json) : exn + descriptor :=
  en <- get output (py "ename") (JStr (py "Unknown")) ;;
  ev <- get output (py "evalue") (JStr []) ;;
  ev <- upto ev 100 ;;
  inr {| cell := i; ename := en; evalue := ev |}.

End Describe.

(** The cell at position [k] of [cells], counted from 0, is a code cell
    and [o] is one of its outputs, tagged as an error. *)
Definition error_output_at (cells : list json) (k : nat) (o : json) : Prop :=
  exists c outs,
    nth_error cells k = Some c
    /\ is_code_cell c = true
    /\ outputs_of c = inr outs
    /\ In o outs
    /\ is_error_output o = true.

(** The list the outer loop runs over in a document. *)
Definition cells_of (notebook : json) : exn + list json :=
  cells <- get notebook (py "cells") (JList []) ;;
  iter cells.

(** The file format of the specification: a document is an object whose
    [cells], when present, is a list of objects; the [outputs] of a code
    cell, when present, is a list of objects; [ename] and [evalue] of an
    error output, when present, are strings. *)
Definition str_or_absent (d : list (pystr * json)) (key : pystr) : bool :=
  match dict_get d key (JStr []) with
  | JStr _ => true
  | _ => false
  end.

Definition wf_output (output : json) : bool :=
  match output with
  | JDict d =>
      if is_error_output output
      then str_or_absent d (py "ename") && str_or_absent d (py "evalue")
      else true
  | _ => false
  end.

Definition wf_cell (c : json) : bool :=
  match c with
  | JDict d =>
      if is_code_cell c
      then match dict_get d (py "outputs") (JList []) with
           | JList outputs => forallb wf_output outputs
           | _ => false
           end
      else true
  | _ => false
  end.

Definition wf_notebook (notebook : json) : bool :=
  match notebook with
  | JDict d =>
      match dict_get d (py "cells") (JList []) with
      | JList cells => forallb wf_cell cells
      | _ => false
      end
  | _ => false
  end.

(** ** Orders *)

(** [lt] is a strict total order. *)
Record strict_order {A : Type} (lt : A -> A -> bool) : Prop := {
  lt_irrefl : forall x, lt x x = false;
  lt_trans : forall x y z, lt x y = true -> lt y z = true -> lt x z = true;
  lt_total : forall x y, lt x y = true \/ x = y \/ lt y x = true
}.

(** ** A scripted runtime *)

(** A runtime whose answers are read off tables, to run the script on
    concrete inputs: the outcome of a sub-process by the last argument of
    its command line, the outcome of loading a file by its path, and the
    list the directory scan returns.  The world counts the sub-processes
    launched so far.  [scripted_on] takes the version of Python as well;
    [scripted] is CPython 3.12 or later. *)
Record script := {
  procs : list (pystr * (exn + CompletedProcess));
  files : list (pystr * (exn + json));
  found : list Path
}.

Fixpoint lookup {A : Type} (key : pystr) (table : list (pystr * A)) (default : A) : A :=
  match table with
  | [] => default
  | (k, v) :: table' => if PyStr.eqb key k then v else lookup key table' default
  end.

Definition scripted_on (modern : bool) (s : script) : Runtime nat :=
  {| python_3_12 := modern;
     executable := py "/usr/bin/python3";
     subprocess_run := fun w cmd =>
       (S w, lookup (last cmd []) (procs s) (inr {| returncode := 0; stderr := [] |}));
     load := fun _ path => lookup (path_str path) (files s) (inl FileNotFoundError);
     glob := fun _ => found s;
     repr_value := fun _ => py "<value>" |}.

Definition scripted (s : script) : Runtime nat := scripted_on true s.

(** *** Runs used as examples *)

(** A sub-process that fails on a cell error, and a runtime in which
    [nb.ipynb] runs into it. *)
Definition failed_process : CompletedProcess :=
  {| returncode := 1;
     stderr := py "Traceback (most recent call last):
nbclient.exceptions.CellExecutionError: An error occurred while executing
------------------
ValueError: bad input
" |}.

Definition failing_run : script :=
  {| procs := [(py "nb.ipynb", inr failed_process)]; files := []; found := [] |}.

(** The documents of the specification's two scenarios: one code cell
    with a [ValueError], and a markdown cell followed by a code cell with
    an error and a clean code cell. *)
Definition value_error : json :=
  JDict [(py "output_type", JStr (py "error"));
         (py "ename", JStr (py "ValueError"));
         (py "evalue", JStr (py "bad input"))].

Definition one_error_notebook : json :=
  JDict [(py "cells",
          JList [JDict [(py "cell_type", JStr (py "code"));
                        (py "outputs", JList [value_error])]])].

Definition three_cell_notebook : json :=
  JDict [(py "cells",
          JList [JDict [(py "cell_type", JStr (py "markdown"))];
                 JDict [(py "cell_type", JStr (py "code"));
                        (py "outputs", JList [value_error])];
                 JDict [(py "cell_type", JStr (py "code"));
                        (py "outputs", JList [])]])].

(** A runtime whose files are these two documents and a file that is not
    JSON. *)
Definition saved_notebooks : script :=
  {| procs := [];
     files := [(py "one.ipynb", inr one_error_notebook);
               (py "three.ipynb", inr three_cell_notebook);
               (py "broken.ipynb", inl JSONDecodeError)];
     found := [] |}.


(** A runtime in which every notebook executes without error. *)
Definition all_pass : script := {| procs := []; files := []; found := [] |}.

(** The name the script is run under below. *)
Definition SCRIPT : pystr := py "check_notebooks.py".

(** ** Vocabulary of the further properties *)

(** The kinds of value the inspector tells apart: a dict has a [get],
    a list, a str and a dict can be iterated, a str and a list can be
    sliced. *)
Definition is_dict (v : json) : bool :=
  match v with
  | JDict _ => true
  | _ => false
  end.

Definition iterable (v : json) : bool :=
  match v with
  | JList _ | JStr _ | JDict _ => true
  | _ => false
  end.

Definition sliceable (v : json) : bool :=
  match v with
  | JStr _ | JList _ => true
  | _ => false
  end.

(** A descriptor with the number of its cell raised by one. *)
Definition bump (d : descriptor) : descriptor :=
  {| cell := S (cell d); ename := ename d; evalue := evalue d |}.

(** The outputs of cell [c] the inspector describes: none unless [c] is a
    code cell, else those of its outputs that are tagged as errors. *)
Definition error_outputs_of (c : json) : list json :=
  if is_code_cell c
  then match outputs_of c with
       | inr outs => filter is_error_output outs
       | inl _ => []
       end
  else [].

(** The error outputs of the cells of a document, in document order,
    each with the number of its cell when the first cell has number [i]. *)
Definition numbered_error_outputs (i : nat) (cells : list json) : list (nat * json) :=
  flat_map (fun nc => List.map (pair (fst nc)) (error_outputs_of (snd nc)))
           (combine (seq i (List.length cells)) cells).

(** *** Further runs used as examples *)

(** A runtime in which the interpreter may not be executed. *)
Definition denied : script :=
  {| procs := [(py "a.ipynb", inl PermissionError)]; files := []; found := [] |}.

(** An error output whose [evalue] is [null], and documents that are not
    of the specified format: a top-level list, and a code cell with that
    output. *)
Definition null_evalue : json :=
  JDict [(py "output_type", JStr (py "error"));
         (py "ename", JStr (py "ValueError"));
         (py "evalue", JNull)].

Definition null_evalue_notebook : json :=
  JDict [(py "cells",
          JList [JDict [(py "cell_type", JStr (py "code"));
                        (py "outputs", JList [null_evalue])]])].

Definition odd_notebooks : script :=
  {| procs := [];
     files := [(py "list.ipynb", inr (JList []));
               (py "null.ipynb", inr null_evalue_notebook);
               (py "one.ipynb", inr one_error_notebook)];
     found := [] |}.




(** An error output whose [evalue] is an object, in a code cell of a
    document, and a runtime with that document. *)
Definition object_evalue : json :=
  JDict [(py "output_type", JStr (py "error"));
         (py "ename", JStr (py "ValueError"));
         (py "evalue", JDict [])].

Definition object_evalue_notebook : json :=
  JDict [(py "cells",
          JList [JDict [(py "cell_type", JStr (py "code"));
                        (py "outputs", JList [object_evalue])]])].

Definition object_notebooks : script :=
  {| procs := [];
     files := [(py "dict.ipynb", inr object_evalue_notebook)];
     found := [] |}.

(** A directory scan that finds a notebook and its checkpoint copy. *)
Definition with_checkpoint : script :=
  {| procs := [];
     files := [];
     found := [Path_of (py "demo/.ipynb_checkpoints/intro-checkpoint.ipynb");
               Path_of (py "demo/intro.ipynb")] |}.

(** * Properties *)

Unset Implicit Arguments.

(** ** Strings *)

Lemma eqb_eq (a b : pystr) : PyStr.eqb a b = true <-> a = b.
Proof.
  revert b; induction a as [|x a IH]; intros [|y b]; simpl;
    try (split; [discriminate | congruence]); try tauto.
  rewrite andb_true_iff, N.eqb_eq, IH.
  split; [intros [-> ->]; reflexivity | intros E; injection E; auto].
Qed.

Lemma eqb_refl (a : pystr) : PyStr.eqb a a = true.
Proof. apply eqb_eq; reflexivity. Qed.

Lemma eqb_neq (a b : pystr) : PyStr.eqb a b = false <-> a <> b.
Proof.
  destruct (PyStr.eqb a b) eqn:E.
  - apply eqb_eq in E; split; [discriminate | congruence].
  - split; [intros _ H; apply eqb_eq in H; congruence | reflexivity].
Qed.

Lemma startswith_spec (s p : pystr) :
  startswith s p = true <-> exists q, s = p ++ q.
Proof.
  revert s; induction p as [|c p IH]; intros s; simpl.
  - split; [intros _; exists s; reflexivity | reflexivity].
  - destruct s as [|x s].
    + split; [discriminate | intros [q H]; discriminate].
    + rewrite andb_true_iff, N.eqb_eq, IH. split.
      * intros [-> [q ->]]; exists q; reflexivity.
      * intros [q H]; injection H as -> ->; split; [reflexivity | exists q; reflexivity].
Qed.

Lemma contains_unfold (sub s : pystr) :
  contains sub s =
  startswith s sub || match s with [] => false | _ :: s' => contains sub s' end.
Proof. destruct s; reflexivity. Qed.

Lemma contains_spec (sub s : pystr) :
  contains sub s = true <-> exists p q, s = p ++ sub ++ q.
Proof.
  induction s as [|x s IH]; rewrite contains_unfold, orb_true_iff, startswith_spec.
  - split.
    + intros [[q H] | H]; [exists [], q; exact H | discriminate].
    + intros [p [q H]]. left. destruct p; [exists q; exact H | discriminate].
  - rewrite IH. split.
    + intros [[q H] | [p [q H]]]; [exists [], q; exact H |].
      exists (x :: p), q; simpl; congruence.
    + intros [[|y p] [q H]]; [left; exists q; exact H | right].
      injection H as _ H. exists p, q; exact H.
Qed.

Lemma contains_trans (a b c : pystr) :
  contains a b = true -> contains b c = true -> contains a c = true.
Proof.
  rewrite !contains_spec. intros [p [q ->]] [p' [q' ->]].
  exists (p' ++ p), (q ++ q'). rewrite <- !app_assoc. reflexivity.
Qed.

Lemma contains_rev (sub s : pystr) :
  contains (rev sub) (rev s) = contains sub s.
Proof.
  assert (H : forall a b, contains a b = true -> contains (rev a) (rev b) = true).
  { intros a b; rewrite !contains_spec; intros [p [q ->]].
    exists (rev q), (rev p). rewrite !rev_app_distr, <- app_assoc. reflexivity. }
  destruct (contains sub s) eqn:E.
  - apply H, E.
  - destruct (contains (rev sub) (rev s)) eqn:E'; [|reflexivity].
    apply H in E'. rewrite !rev_involutive in E'. congruence.
Qed.

Lemma split_nonempty (sep : codepoint) (s : pystr) : split sep s <> [].
Proof.
  destruct s as [|x s]; simpl; [discriminate|].
  destruct (N.eqb x sep); [discriminate|].
  destruct (split sep s); discriminate.
Qed.

Lemma join_split (sep : codepoint) (s : pystr) : join [sep] (split sep s) = s.
Proof.
  induction s as [|x s IH]; [reflexivity|]. simpl.
  destruct (N.eqb x sep) eqn:E.
  - apply N.eqb_eq in E; subst x.
    pose proof (split_nonempty sep s) as NE.
    destruct (split sep s) as [|f fs]; [congruence|].
    change (join [sep] ([] :: f :: fs)) with ([sep] ++ join [sep] (f :: fs)).
    rewrite IH; reflexivity.
  - pose proof (split_nonempty sep s) as NE.
    destruct (split sep s) as [|f fs]; [congruence|].
    destruct fs as [|g fs]; simpl in *; rewrite <- IH; reflexivity.
Qed.

Section SplitContains.

Variable sep : codepoint.

(** A string without separator at the head of [s] is at the head of the
    first field. *)
Lemma startswith_split (m s : pystr) :
  ~ In sep m -> startswith s m = true ->
  exists f fs, split sep s = f :: fs /\ startswith f m = true.
Proof.
  revert s; induction m as [|c m IH]; intros s NI H.
  - pose proof (split_nonempty sep s) as NE.
    destruct (split sep s) as [|f fs]; [congruence|]. exists f, fs; auto.
  - destruct s as [|x s]; simpl in H; [discriminate|].
    apply andb_true_iff in H as [Hx Hs]. apply N.eqb_eq in Hx; subst x.
    destruct (IH s) as [f [fs [E Hf]]]; [intros ?; apply NI; right; assumption | exact Hs |].
    simpl. destruct (N.eqb c sep) eqn:Ec.
    + apply N.eqb_eq in Ec. exfalso; apply NI; left; congruence.
    + rewrite E. exists (c :: f), fs. simpl. rewrite N.eqb_refl, Hf. auto.
Qed.

(** A string without separator that occurs in [s] occurs in one of its
    fields. *)
Lemma contains_split (m s : pystr) :
  ~ In sep m -> contains m s = true ->
  exists field, In field (split sep s) /\ contains m field = true.
Proof.
  intros NI. induction s as [|x s IH]; rewrite contains_unfold; intros H.
  - apply orb_true_iff in H as [H | H]; [|discriminate].
    destruct (startswith_split _ _ NI H) as [f [fs [E Hf]]].
    exists f. rewrite E. split; [left; reflexivity|].
    rewrite contains_unfold, Hf; reflexivity.
  - apply orb_true_iff in H as [H | H].
    + destruct (startswith_split _ _ NI H) as [f [fs [E Hf]]].
      exists f. rewrite E. split; [left; reflexivity|].
      rewrite contains_unfold, Hf; reflexivity.
    + destruct (IH H) as [field [Hin Hc]].
      simpl. destruct (N.eqb x sep).
      * exists field; split; [right; exact Hin | exact Hc].
      * destruct (split sep s) as [|f fs]; [destruct Hin|].
        destruct Hin as [<- | Hin].
        -- exists (x :: f); split; [left; reflexivity|].
           rewrite contains_unfold, Hc; apply orb_true_r.
        -- exists field; split; [right; exact Hin | exact Hc].
Qed.

End SplitContains.

(** Stripping removes white space only: what has none and is not empty
    occurs in the stripped string exactly when it occurs in the string. *)
Lemma contains_lstrip (sub s : pystr) (c : codepoint) (sub' : pystr) :
  sub = c :: sub' -> isspace c = false ->
  contains sub (lstrip s) = contains sub s.
Proof.
  intros -> Hc. induction s as [|x s IH]; [reflexivity|].
  simpl lstrip. destruct (isspace x) eqn:Ex; [|reflexivity].
  rewrite IH. rewrite (contains_unfold (c :: sub') (x :: s)). simpl startswith.
  destruct (N.eqb x c) eqn:E; [|reflexivity].
  apply N.eqb_eq in E; congruence.
Qed.

Lemma contains_strip (sub s : pystr) :
  forallb (fun c => negb (isspace c)) sub = true -> sub <> [] ->
  contains sub (strip s) = contains sub s.
Proof.
  intros Hall NE. unfold strip, rstrip.
  assert (Hrev : forallb (fun c => negb (isspace c)) (rev sub) = true).
  { rewrite forallb_forall in *. intros x Hx. apply Hall, in_rev, Hx. }
  rewrite <- (rev_involutive sub) at 1. rewrite contains_rev.
  destruct (rev sub) as [|c r] eqn:Er.
  { apply (f_equal (@rev _)) in Er. rewrite rev_involutive in Er. contradiction. }
  simpl in Hrev. apply andb_true_iff in Hrev as [Hc _]. apply negb_true_iff in Hc.
  rewrite (contains_lstrip (c :: r) (rev (lstrip s)) c r eq_refl Hc).
  rewrite <- Er, contains_rev.
  destruct sub as [|d sub']; [contradiction|].
  simpl in Hall. apply andb_true_iff in Hall as [Hd _]. apply negb_true_iff in Hd.
  apply (contains_lstrip (d :: sub') s d sub' eq_refl Hd).
Qed.

(** ** The diagnostic of [run_notebook] *)

Lemma truncate_firstn (n : nat) (msg : pystr) :
  (if n <? List.length msg then slice msg 0 n else msg) = firstn n msg.
Proof.
  unfold slice. rewrite Nat.sub_0_r. simpl skipn.
  destruct (n <? List.length msg) eqn:E; [reflexivity|].
  apply Nat.ltb_ge in E. symmetry; apply firstn_all2; exact E.
Qed.

(** [lines[k:k+3]] at a line and what follows it. *)
Lemma slice_three (before : list pystr) (line : pystr) (after : list pystr) :
  slice (before ++ line :: after) (List.length before) (List.length before + 3)
  = line :: firstn 2 after.
Proof.
  unfold slice.
  replace (List.length before + 3 - List.length before) with 3 by lia.
  rewrite skipn_app, skipn_all, Nat.sub_diag. reflexivity.
Qed.

(** The loop stops at the first line that passes the test. *)
Lemma find_error_found (lines done before : list pystr) (line : pystr)
      (after : list pystr) (fallback : pystr) :
  lines = done ++ before ++ line :: after ->
  Forall (fun l => is_error_line l = false) before ->
  is_error_line line = true ->
  find_error lines (before ++ line :: after) (List.length done) fallback
  = join [LF] (line :: firstn 2 after).
Proof.
  revert done; induction before as [|b before IH]; intros done E Hb Hl.
  - simpl app. simpl find_error. unfold is_error_line in Hl. rewrite Hl.
    rewrite E. simpl app. rewrite slice_three. reflexivity.
  - inversion Hb as [|? ? Hb1 Hb2]; subst.
    simpl app. simpl find_error. unfold is_error_line in Hb1. rewrite Hb1.
    replace (S (List.length done)) with (List.length (done ++ [b]))
      by (rewrite length_app; simpl; lia).
    apply IH; [rewrite <- app_assoc; reflexivity | exact Hb2 | exact Hl].
Qed.

(** Without such a line the message is left as it was. *)
Lemma find_error_none (lines rest : list pystr) (i : nat) (fallback : pystr) :
  Forall (fun l => is_error_line l = false) rest ->
  find_error lines rest i fallback = fallback.
Proof.
  revert i; induction rest as [|l rest IH]; intros i H; [reflexivity|].
  inversion H as [|? ? H1 H2]; subst. simpl. unfold is_error_line in H1.
  rewrite H1. apply IH, H2.
Qed.

(** A list with a line that passes the test splits at the first one. *)
Lemma first_error_line (lines : list pystr) :
  (exists l, In l lines /\ is_error_line l = true) ->
  exists before line after,
    lines = before ++ line :: after
    /\ Forall (fun l => is_error_line l = false) before
    /\ is_error_line line = true.
Proof.
  induction lines as [|l lines IH]; intros [x [Hin Hx]]; [destruct Hin|].
  destruct (is_error_line l) eqn:El.
  - exists [], l, lines. repeat split; [constructor | exact El].
  - destruct IH as [before [line [after [E [Hb Hl]]]]].
    { destruct Hin as [-> | Hin]; [congruence | exists x; auto]. }
    exists (l :: before), line, after. rewrite E.
    repeat split; [constructor; assumption | exact Hl].
Qed.

Lemma cell_execution_error_line (s : pystr) :
  contains (py "CellExecutionError") s = true ->
  exists line, In line (split LF s) /\ contains (py "Error") line = true.
Proof.
  intros H.
  destruct (contains_split LF (py "CellExecutionError") s) as [line [Hin Hc]].
  - vm_compute. intuition discriminate.
  - exact H.
  - exists line. split; [exact Hin|].
    apply contains_trans with (b := py "CellExecutionError"); [reflexivity | exact Hc].
Qed.

Lemma contains_strip_marker (s : pystr) :
  contains (py "CellExecutionError") (strip s) = contains (py "CellExecutionError") s.
Proof. apply contains_strip; [reflexivity | discriminate]. Qed.

Lemma diagnostic_truncates (s : pystr) :
  diagnostic s =
  firstn 200
    (if contains (py "CellExecutionError") (strip s)
     then find_error (split LF (strip s)) (split LF (strip s)) 0 (strip s)
     else strip s).
Proof. unfold diagnostic. cbv zeta. apply truncate_firstn. Qed.

(** The message before truncation, when the marker is there. *)
Lemma diagnostic_extract (s : pystr) :
  contains (py "CellExecutionError") s = true ->
  exists before line after,
    split LF (strip s) = before ++ line :: after
    /\ Forall (fun l => is_error_line l = false) before
    /\ is_error_line line = true
    /\ (forall fallback,
          find_error (split LF (strip s)) (split LF (strip s)) 0 fallback
          = join [LF] (line :: firstn 2 after))
    /\ diagnostic s = firstn 200 (join [LF] (line :: firstn 2 after)).
Proof.
  intros H. rewrite <- contains_strip_marker in H.
  destruct (cell_execution_error_line _ H) as [l [Hin Hl]].
  destruct (first_error_line (split LF (strip s))) as [before [line [after [E [Hb Hline]]]]].
  { exists l. split; [exact Hin|]. unfold is_error_line. rewrite Hl. reflexivity. }
  exists before, line, after.
  assert (F : forall fallback,
             find_error (split LF (strip s)) (split LF (strip s)) 0 fallback
             = join [LF] (line :: firstn 2 after)).
  { intros fallback. rewrite E at 2.
    apply (find_error_found (split LF (strip s)) [] before line after fallback E Hb Hline). }
  repeat split; try assumption.
  rewrite diagnostic_truncates, H, F. reflexivity.
Qed.

Section RunNotebook.

Context {World : Type} {RT : Runtime World}.

Lemma run_notebook_completed (w w' : World) (path : Path) (result : CompletedProcess) :
  subprocess_run w (command path) = (w', inr result) ->
  run_notebook w path =
  if (returncode result =? 0)%Z then (w', inr (true, []))
  else (w', inr (false, diagnostic (stderr result))).
Proof.
  intros E. unfold run_notebook. rewrite E.
  destruct (returncode result =? 0)%Z; reflexivity.
Qed.


(** C3.  When the sub-process exits with a non-zero status, [run_notebook]
    returns failure with the first 200 characters of a message [msg]
    (nothing is appended to it): if the captured stderr contains
    [CellExecutionError], [msg] is the first line of the stripped stderr
    that contains [Error] or [Exception], joined by newlines with the (up
    to) two lines after it; otherwise [msg] is the stripped stderr.  What
    is returned is never longer than 200 characters, and is exactly 200
    long when [msg] is longer. *)
Theorem run_notebook_failure_diagnostic :
  forall (w w' : World) (path : Path) (result : CompletedProcess),
    subprocess_run w (command path) = (w', inr result) ->
    returncode result <> 0%Z ->
    exists msg : pystr,
      run_notebook w path = (w', inr (false, firstn 200 msg))
      /\ (contains (py "CellExecutionError") (stderr result) = true ->
          exists before line after,
            split LF (strip (stderr result)) = before ++ line :: after
            /\ Forall (fun l => contains (py "Error") l = false
                                /\ contains (py "Exception") l = false) before
            /\ (contains (py "Error") line = true
                \/ contains (py "Exception") line = true)
            /\ msg = join [LF] (line :: firstn 2 after))
      /\ (contains (py "CellExecutionError") (stderr result) = false ->
          msg = strip (stderr result))
      /\ List.length (firstn 200 msg) <= 200
      /\ (200 < List.length msg -> List.length (firstn 200 msg) = 200).
Proof.
  intros w w' path result Hrun Hcode.
  rewrite (run_notebook_completed w w' path result Hrun).
  apply Z.eqb_neq in Hcode. rewrite Hcode.
  set (s := stderr result).
  exists (if contains (py "CellExecutionError") (strip s)
          then find_error (split LF (strip s)) (split LF (strip s)) 0 (strip s)
          else strip s).
  split; [rewrite diagnostic_truncates; reflexivity|].
  rewrite contains_strip_marker.
  split; [|split; [|split]].
  - intros H. rewrite H.
    destruct (diagnostic_extract s H) as [before [line [after [E [Hb [Hl [F _]]]]]]].
    exists before, line, after. split; [exact E|]. split; [|split].
    + eapply Forall_impl; [|exact Hb]. intros l Hf. unfold is_error_line in Hf.
      apply orb_false_iff in Hf. exact Hf.
    + unfold is_error_line in Hl. apply orb_true_iff in Hl. exact Hl.
    + apply F.
  - intros H. rewrite H. reflexivity.
  - rewrite length_firstn. lia.
  - intros H. rewrite length_firstn. lia.
Qed.

(** C10.  When the captured stderr contains [CellExecutionError], some
    line of the stripped stderr contains [Error], so the scan of
    [run_notebook] stops at a line (the first that contains [Error] or
    [Exception]) whatever the message it would otherwise fall back to,
    and the diagnostic returned is the first 200 characters of that line
    joined by newlines with the (up to) two lines after it. *)
Theorem cell_execution_error_scan_succeeds :
  forall (w w' : World) (path : Path) (result : CompletedProcess),
    subprocess_run w (command path) = (w', inr result) ->
    returncode result <> 0%Z ->
    contains (py "CellExecutionError") (stderr result) = true ->
    let lines := split LF (strip (stderr result)) in
    (exists l, In l lines /\ contains (py "Error") l = true)
    /\ exists before line after,
         lines = before ++ line :: after
         /\ Forall (fun l => is_error_line l = false) before
         /\ is_error_line line = true
         /\ (forall fallback,
               find_error lines lines 0 fallback = join [LF] (line :: firstn 2 after))
         /\ run_notebook w path
            = (w', inr (false, firstn 200 (join [LF] (line :: firstn 2 after)))).
Proof.
  intros w w' path result Hrun Hcode H lines. split.
  - apply cell_execution_error_line. rewrite contains_strip_marker. exact H.
  - destruct (diagnostic_extract (stderr result) H)
      as [before [line [after [E [Hb [Hl [F D]]]]]]].
    exists before, line, after. repeat split; try assumption.
    rewrite (run_notebook_completed w w' path result Hrun).
    apply Z.eqb_neq in Hcode. rewrite Hcode, D. reflexivity.
Qed.

End RunNotebook.

Lemma run_notebook_failure_diagnostic_witness :
  exists msg : pystr,
    run_notebook (RT := scripted failing_run) 0 (Path_of (py "nb.ipynb"))
    = (1, inr (false, firstn 200 msg))
    /\ List.length (firstn 200 msg) <= 200.
Proof.
  destruct (run_notebook_failure_diagnostic (RT := scripted failing_run)
              0 1 (Path_of (py "nb.ipynb")) failed_process)
    as [msg [H1 [_ [_ [H2 _]]]]].
  - reflexivity.
  - simpl; lia.
  - exists msg; split; assumption.
Defined.

Lemma cell_execution_error_scan_succeeds_witness :
  exists line after,
    run_notebook (RT := scripted failing_run) 0 (Path_of (py "nb.ipynb"))
    = (1, inr (false, firstn 200 (join [LF] (line :: firstn 2 after)))).
Proof.
  destruct (cell_execution_error_scan_succeeds (RT := scripted failing_run)
              0 1 (Path_of (py "nb.ipynb")) failed_process)
    as [_ [before [line [after [_ [_ [_ [_ H]]]]]]]].
  - reflexivity.
  - simpl; lia.
  - reflexivity.
  - exists line, after; exact H.
Defined.

(** ** The inspector *)

Section Inspector.

Context {World : Type} {RT : Runtime World}.

Lemma bind_inr {A B : Type} (m : exn + A) (k : A -> exn + B) (b : B) :
  bind m k = inr b -> exists a, m = inr a /\ k a = inr b.
Proof. destruct m as [e | a]; simpl; [discriminate | intros H; exists a; auto]. Qed.

Lemma describe_cell (i : nat) (o : json) (d : descriptor) :
  describe i o = inr d -> cell d = i.
Proof.
  unfold describe. intros H.
  apply bind_inr in H as [en [_ H]]. apply bind_inr in H as [ev [_ H]].
  apply bind_inr in H as [ev' [_ H]]. injection H as <-. reflexivity.
Qed.

(** One step of the inner loop. *)
Lemma check_outputs_cons (i : nat) (o : json) (rest : list json)
      (errors : list descriptor) :
  check_outputs i (o :: rest) errors =
  match get o (py "output_type") JNull with
  | inl e => inl e
  | inr _ =>
      if is_error_output o
      then d <- describe i o ;; check_outputs i rest (errors ++ [d])
      else check_outputs i rest errors
  end.
Proof.
  simpl check_outputs. unfold is_error_output, describe.
  destruct (get o (py "output_type") JNull) as [e | t]; [reflexivity|]. simpl bind.
  destruct (is_str t (py "error")); [|reflexivity].
  destruct (get o (py "ename") (JStr (py "Unknown"))) as [e | en]; [reflexivity|].
  simpl bind.
  destruct (get o (py "evalue") (JStr [])) as [e | ev]; [reflexivity|]. simpl bind.
  destruct (upto ev 100) as [e | ev']; reflexivity.
Qed.

(** The inner loop appends one descriptor per error output, in order. *)
Lemma check_outputs_acc (i : nat) (outs : list json) :
  forall errors errs,
    check_outputs i outs errors = inr errs ->
    exists new,
      errs = errors ++ new
      /\ Forall2 (fun o d => describe i o = inr d) (filter is_error_output outs) new.
Proof.
  induction outs as [|o outs IH]; intros errors errs H.
  - injection H as <-. exists []. rewrite app_nil_r. split; [reflexivity | constructor].
  - rewrite check_outputs_cons in H. simpl filter.
    destruct (get o (py "output_type") JNull) as [e | t]; [discriminate|].
    destruct (is_error_output o).
    + apply bind_inr in H as [d [Hd H]].
      destruct (IH _ _ H) as [new [-> F]].
      exists (d :: new). rewrite <- app_assoc. split; [reflexivity|].
      constructor; assumption.
    + apply IH, H.
Qed.

(** One step of the outer loop. *)
Lemma check_cells_cons (i : nat) (c : json) (rest : list json)
      (errors : list descriptor) :
  check_cells i (c :: rest) errors =
  match get c (py "cell_type") JNull with
  | inl e => inl e
  | inr _ =>
      if is_code_cell c
      then outs <- outputs_of c ;;
           errors' <- check_outputs i outs errors ;;
           check_cells (S i) rest errors'
      else check_cells (S i) rest errors
  end.
Proof.
  simpl check_cells. unfold is_code_cell, outputs_of.
  destruct (get c (py "cell_type") JNull) as [e | t]; [reflexivity|]. simpl bind.
  destruct (is_str t (py "code")); simpl negb; cbv iota; [|reflexivity].
  destruct (get c (py "outputs") (JList [])) as [e | v]; [reflexivity|]. simpl bind.
  destruct (iter v); reflexivity.
Qed.

Lemma Forall2_In_r {A B : Type} (R : A -> B -> Prop) (l : list A) (l' : list B) (y : B) :
  Forall2 R l l' -> In y l' -> exists x, In x l /\ R x y.
Proof.
  induction 1 as [|a b l l' Hab _ IH]; intros Hin; [destruct Hin|].
  destruct Hin as [<- | Hin].
  - exists a; split; [left; reflexivity | exact Hab].
  - destruct (IH Hin) as [x [Hx Hr]]. exists x; split; [right; exact Hx | exact Hr].
Qed.

Lemma Forall2_In_l {A B : Type} (R : A -> B -> Prop) (l : list A) (l' : list B) (x : A) :
  Forall2 R l l' -> In x l -> exists y, In y l' /\ R x y.
Proof.
  induction 1 as [|a b l l' Hab _ IH]; intros Hin; [destruct Hin|].
  destruct Hin as [<- | Hin].
  - exists b; split; [left; reflexivity | exact Hab].
  - destruct (IH Hin) as [y [Hy Hr]]. exists y; split; [right; exact Hy | exact Hr].
Qed.

Lemma StronglySorted_app {A : Type} (R : A -> A -> Prop) (l1 l2 : list A) :
  StronglySorted R l1 -> StronglySorted R l2 ->
  (forall x y, In x l1 -> In y l2 -> R x y) ->
  StronglySorted R (l1 ++ l2).
Proof.
  induction 1 as [|a l1 S1 IH F1]; intros S2 H; [exact S2|].
  simpl. constructor.
  - apply IH; [exact S2 | intros x y Hx Hy; apply H; [right; exact Hx | exact Hy]].
  - apply Forall_app. split; [exact F1|].
    apply Forall_forall. intros y Hy. apply H; [left; reflexivity | exact Hy].
Qed.

(** The outer loop started at number [i]: every descriptor it appends
    describes an error output of a code cell under the number [i + k] of
    the cell's position [k], every such output is described, and the
    numbers never decrease. *)
Lemma check_cells_acc (cells : list json) :
  forall i errors errs,
    check_cells i cells errors = inr errs ->
    exists new,
      errs = errors ++ new
      /\ (forall d, In d new ->
            exists k o, error_output_at cells k o /\ describe (i + k) o = inr d)
      /\ (forall k o, error_output_at cells k o ->
            exists d, In d new /\ describe (i + k) o = inr d)
      /\ StronglySorted le (List.map cell new).
Proof.
  induction cells as [|c cells IH]; intros i errors errs H.
  - injection H as <-. exists []. rewrite app_nil_r. split; [reflexivity|].
    split; [intros d []|]. split; [|constructor].
    intros k o [c [outs [Hn _]]]. destruct k; discriminate.
  - rewrite check_cells_cons in H.
    destruct (get c (py "cell_type") JNull) as [e | t]; [discriminate|].
    destruct (is_code_cell c) eqn:Hcode.
    + apply bind_inr in H as [outs [Houts H]].
      apply bind_inr in H as [errors' [Hinner H]].
      destruct (check_outputs_acc _ _ _ _ Hinner) as [new1 [-> F]].
      destruct (IH _ _ _ H) as [new2 [-> [Hs [Hc Hsort]]]].
      exists (new1 ++ new2). rewrite <- app_assoc. split; [reflexivity|].
      assert (C1 : forall d, In d new1 -> cell d = i).
      { intros d Hd. destruct (Forall2_In_r _ _ _ _ F Hd) as [o [_ Ho]].
        apply (describe_cell _ _ _ Ho). }
      assert (C2 : forall d, In d new2 -> S i <= cell d).
      { intros d Hd. destruct (Hs d Hd) as [k [o [_ Ho]]].
        apply describe_cell in Ho. lia. }
      split; [|split].
      * intros d Hd. apply in_app_or in Hd as [Hd | Hd].
        -- destruct (Forall2_In_r _ _ _ _ F Hd) as [o [Hin Ho]].
           apply filter_In in Hin as [Hin He].
           exists 0, o. rewrite Nat.add_0_r. split; [|exact Ho].
           exists c, outs. repeat split; assumption.
        -- destruct (Hs d Hd) as [k [o [[c' [outs' [Hn R]]] Ho]]].
           exists (S k), o. rewrite Nat.add_succ_r. split; [|exact Ho].
           exists c', outs'. split; assumption.
      * intros k o [c' [outs' [Hn [Hcc [Ho [Hin He]]]]]].
        destruct k as [|k].
        -- injection Hn as <-. rewrite Ho in Houts. injection Houts as <-.
           destruct (Forall2_In_l _ _ _ o F) as [d [Hd1 Hd2]].
           { apply filter_In; split; assumption. }
           exists d. rewrite Nat.add_0_r. split; [apply in_or_app; left|]; assumption.
        -- rewrite Nat.add_succ_r in *.
           destruct (Hc k o) as [d [Hd1 Hd2]].
           { exists c', outs'. repeat split; assumption. }
           exists d. split; [apply in_or_app; right|]; assumption.
      * rewrite map_app. apply StronglySorted_app; [|exact Hsort|].
        -- clear - C1. induction new1 as [|d new1 IH1]; [constructor|].
           simpl. constructor.
           ++ apply IH1. intros x Hx; apply C1; right; exact Hx.
           ++ apply Forall_forall. intros n Hn. apply in_map_iff in Hn as [x [<- Hx]].
              rewrite (C1 d), (C1 x); [lia | right; exact Hx | left; reflexivity].
        -- intros x y Hx Hy.
           apply in_map_iff in Hx as [dx [<- Hx]]. apply in_map_iff in Hy as [dy [<- Hy]].
           rewrite (C1 dx Hx). specialize (C2 dy Hy). lia.
    + destruct (IH _ _ _ H) as [new [-> [Hs [Hc Hsort]]]].
      exists new. split; [reflexivity|]. split; [|split; [|exact Hsort]].
      * intros d Hd. destruct (Hs d Hd) as [k [o [[c' [outs' [Hn R]]] Ho]]].
        exists (S k), o. rewrite Nat.add_succ_r. split; [|exact Ho].
        exists c', outs'. split; assumption.
      * intros k o [c' [outs' [Hn [Hcc R]]]].
        destruct k as [|k]; [injection Hn as <-; congruence|].
        rewrite Nat.add_succ_r in *. apply (Hc k o).
        exists c', outs'. split; [exact Hn | split; [exact Hcc | exact R]].
Qed.

(** *** Documents of the specified format are inspected without exception *)

Lemma dict_get_absent (d : list (pystr * json)) (key : pystr) (default : json) :
  ~ In key (List.map fst d) -> dict_get d key default = default.
Proof.
  induction d as [|[k v] d IH]; simpl; intros H; [reflexivity|].
  destruct (PyStr.eqb k key) eqn:E.
  - apply eqb_eq in E. exfalso; apply H; left; exact E.
  - apply IH. intros Hin; apply H; right; exact Hin.
Qed.

(** What [describe] returns on an error output of the specified format. *)
Lemma describe_wf (i : nat) (o : json) :
  wf_output o = true -> is_error_output o = true ->
  exists items s,
    o = JDict items
    /\ dict_get items (py "evalue") (JStr []) = JStr s
    /\ describe i o =
       inr {| cell := i;
              ename := dict_get items (py "ename") (JStr (py "Unknown"));
              evalue := JStr (firstn 100 s) |}.
Proof.
  intros W E. destruct o as [| | | | |l|items]; try discriminate.
  unfold wf_output in W. rewrite E in W. apply andb_true_iff in W as [_ W].
  unfold str_or_absent in W.
  destruct (dict_get items (py "evalue") (JStr [])) as [| | | |s| |] eqn:Ev; try discriminate.
  exists items, s. split; [reflexivity|]. split; [exact Ev|].
  unfold describe. simpl get. simpl bind. rewrite Ev. reflexivity.
Qed.

Lemma check_outputs_total (i : nat) (outs : list json) :
  forallb wf_output outs = true ->
  forall errors, exists errs, check_outputs i outs errors = inr errs.
Proof.
  induction outs as [|o outs IH]; intros W errors; [exists errors; reflexivity|].
  simpl in W. apply andb_true_iff in W as [Wo W].
  rewrite check_outputs_cons.
  destruct (is_error_output o) eqn:E.
  - destruct (describe_wf i o Wo E) as [items [s [-> [_ D]]]].
    rewrite D. simpl. apply IH, W.
  - destruct o; try discriminate. simpl. apply IH, W.
Qed.

Lemma check_cells_total (cells : list json) :
  forallb wf_cell cells = true ->
  forall i errors, exists errs, check_cells i cells errors = inr errs.
Proof.
  induction cells as [|c cells IH]; intros W i errors; [exists errors; reflexivity|].
  simpl in W. apply andb_true_iff in W as [Wc W].
  rewrite check_cells_cons.
  destruct c as [| | | | |l|items]; try discriminate. simpl get.
  unfold wf_cell in Wc.
  destruct (is_code_cell (JDict items)) eqn:E; [|apply IH, W].
  unfold outputs_of. simpl get. simpl bind.
  destruct (dict_get items (py "outputs") (JList [])) as [| | | | |outs|]; try discriminate.
  simpl iter. unfold bind at 1.
  destruct (check_outputs_total i outs Wc errors) as [errors' ->]. simpl.
  apply IH, W.
Qed.

Lemma inspect_total (notebook : json) :
  wf_notebook notebook = true -> exists errs, inspect notebook = inr errs.
Proof.
  intros W. destruct notebook as [| | | | |l|items]; try discriminate.
  unfold wf_notebook in W. unfold inspect. simpl get. simpl bind.
  destruct (dict_get items (py "cells") (JList [])) as [| | | | |cells|]; try discriminate.
  simpl. apply check_cells_total, W.
Qed.

(** The cells and outputs of a document of the specified format have the
    specified format as well. *)
Lemma wf_error_output_at (notebook : json) (cells : list json) (k : nat) (o : json) :
  wf_notebook notebook = true -> cells_of notebook = inr cells ->
  error_output_at cells k o -> wf_output o = true.
Proof.
  intros W C [c [outs [Hn [Hc [Ho [Hin _]]]]]].
  destruct notebook as [| | | | |l|items]; try discriminate.
  unfold wf_notebook in W. unfold cells_of in C. simpl in C.
  destruct (dict_get items (py "cells") (JList [])) as [| | | | |cs|]; try discriminate.
  simpl in C. injection C as <-.
  rewrite forallb_forall in W. apply nth_error_In in Hn. specialize (W c Hn).
  destruct c as [| | | | |l|citems]; try discriminate.
  unfold wf_cell in W. rewrite Hc in W. unfold outputs_of in Ho. simpl in Ho.
  destruct (dict_get citems (py "outputs") (JList [])) as [| | | | |os|]; try discriminate.
  simpl in Ho. injection Ho as <-.
  rewrite forallb_forall in W. apply W, Hin.
Qed.

(** The result of the inspector on a loaded document. *)
Lemma inspect_acc (notebook : json) (cells : list json) (errs : list descriptor) :
  cells_of notebook = inr cells -> inspect notebook = inr errs ->
  (forall d, In d errs ->
     exists k o, error_output_at cells k o /\ describe (S k) o = inr d)
  /\ (forall k o, error_output_at cells k o ->
        exists d, In d errs /\ describe (S k) o = inr d)
  /\ StronglySorted le (List.map cell errs).
Proof.
  unfold cells_of, inspect. intros C H.
  destruct (get notebook (py "cells") (JList [])) as [e | v]; [discriminate|].
  simpl in C, H. rewrite C in H. simpl in H.
  destruct (check_cells_acc cells 1 [] errs H) as [new [-> R]]. exact R.
Qed.

Lemma check_saved_outputs_loaded (w : World) (path : Path) (notebook : json) :
  load w path = inr notebook -> check_saved_outputs w path = inspect notebook.
Proof. intros E. unfold check_saved_outputs. rewrite E. reflexivity. Qed.

(** C2.  The number a descriptor carries is the position of its cell in
    the document's full cell list, counted from 1, non-code cells counted
    too: when [check_saved_outputs] returns, every descriptor describes an
    error output of the code cell at position [k] (from 0) under the
    number [k + 1], every such output has a descriptor with that number,
    and the numbers come in document order.  A document of the specified
    format is always inspected to the end.  On the cells [markdown,
    code with an error, clean code] the one descriptor has number 2. *)
Theorem check_saved_outputs_cell_numbers :
  (forall (w : World) (path : Path) (notebook : json) (cells : list json)
          (errs : list descriptor),
      load w path = inr notebook ->
      cells_of notebook = inr cells ->
      check_saved_outputs w path = inr errs ->
      (forall d, In d errs ->
         exists k o,
           cell d = S k /\ error_output_at cells k o /\ describe (S k) o = inr d)
      /\ (forall k o, error_output_at cells k o ->
            exists d, In d errs /\ cell d = S k /\ describe (S k) o = inr d)
      /\ StronglySorted le (List.map cell errs))
  /\ (forall (w : World) (path : Path) (notebook : json),
        load w path = inr notebook -> wf_notebook notebook = true ->
        exists errs, check_saved_outputs w path = inr errs)
  /\ (forall (w : World) (path : Path),
        load w path = inr three_cell_notebook ->
        check_saved_outputs w path
        = inr [{| cell := 2; ename := JStr (py "ValueError");
                  evalue := JStr (py "bad input") |}]).
Proof.
  split; [|split].
  - intros w path notebook cells errs L C H.
    rewrite (check_saved_outputs_loaded w path notebook L) in H.
    destruct (inspect_acc notebook cells errs C H) as [Hs [Hc Hsort]].
    split; [|split; [|exact Hsort]].
    + intros d Hd. destruct (Hs d Hd) as [k [o [He Ho]]].
      exists k, o. split; [apply (describe_cell _ _ _ Ho) | split; assumption].
    + intros k o He. destruct (Hc k o He) as [d [Hd Ho]].
      exists d. split; [exact Hd | split; [apply (describe_cell _ _ _ Ho) | exact Ho]].
  - intros w path notebook L W.
    rewrite (check_saved_outputs_loaded w path notebook L). apply inspect_total, W.
  - intros w path L.
    rewrite (check_saved_outputs_loaded w path _ L). reflexivity.
Qed.

(** C4.  On a document of the specified format [check_saved_outputs]
    returns a list that holds, for every output tagged [error] of a code
    cell, a descriptor with the cell's number counted from 1, the output's
    [ename] ([Unknown] when the output has none) and the first 100
    characters of its [evalue]; every descriptor of the list is one of
    these.  On the document with the single code cell whose output is the
    error [ValueError: bad input] the list is exactly the descriptor
    (1, [ValueError], [bad input]). *)
Theorem check_saved_outputs_descriptors :
  (forall (w : World) (path : Path) (notebook : json) (cells : list json),
      load w path = inr notebook ->
      wf_notebook notebook = true ->
      cells_of notebook = inr cells ->
      exists errs,
        check_saved_outputs w path = inr errs
        /\ (forall k o, error_output_at cells k o ->
              exists items s,
                o = JDict items
                /\ dict_get items (py "evalue") (JStr []) = JStr s
                /\ List.length (firstn 100 s) <= 100
                /\ (~ In (py "ename") (List.map fst items) ->
                    dict_get items (py "ename") (JStr (py "Unknown"))
                    = JStr (py "Unknown"))
                /\ In {| cell := S k;
                         ename := dict_get items (py "ename") (JStr (py "Unknown"));
                         evalue := JStr (firstn 100 s) |} errs)
        /\ (forall d, In d errs ->
              exists k o, error_output_at cells k o /\ describe (S k) o = inr d))
  /\ (forall (w : World) (path : Path),
        load w path = inr one_error_notebook ->
        check_saved_outputs w path
        = inr [{| cell := 1; ename := JStr (py "ValueError");
                  evalue := JStr (py "bad input") |}]).
Proof.
  split.
  - intros w path notebook cells L W C.
    rewrite (check_saved_outputs_loaded w path notebook L).
    destruct (inspect_total notebook W) as [errs H].
    exists errs. split; [exact H|].
    destruct (inspect_acc notebook cells errs C H) as [Hs [Hc _]].
    split; [|exact Hs].
    intros k o He.
    pose proof (wf_error_output_at notebook cells k o W C He) as Wo.
    destruct He as [c [outs [Hn [Hcc [Ho [Hin Herr]]]]]].
    destruct (describe_wf (S k) o Wo Herr) as [items [s [-> [Ev D]]]].
    exists items, s. split; [reflexivity|]. split; [exact Ev|].
    split; [rewrite length_firstn; lia|]. split; [apply dict_get_absent|].
    destruct (Hc k (JDict items)) as [d [Hd Hd']].
    { exists c, outs. repeat split; assumption. }
    rewrite D in Hd'. injection Hd' as <-. exact Hd.
  - intros w path L.
    rewrite (check_saved_outputs_loaded w path _ L). reflexivity.
Qed.

End Inspector.

Lemma check_saved_outputs_cell_numbers_witness :
  exists k o,
    error_output_at
      [JDict [(py "cell_type", JStr (py "markdown"))];
       JDict [(py "cell_type", JStr (py "code")); (py "outputs", JList [value_error])];
       JDict [(py "cell_type", JStr (py "code")); (py "outputs", JList [])]] k o
    /\ describe (RT := scripted saved_notebooks) 2 o
       = inr {| cell := 2; ename := JStr (py "ValueError");
                evalue := JStr (py "bad input") |}.
Proof.
  destruct (@check_saved_outputs_cell_numbers nat (scripted saved_notebooks))
    as [H _].
  destruct (H 0 (Path_of (py "three.ipynb")) three_cell_notebook
              [JDict [(py "cell_type", JStr (py "markdown"))];
               JDict [(py "cell_type", JStr (py "code")); (py "outputs", JList [value_error])];
               JDict [(py "cell_type", JStr (py "code")); (py "outputs", JList [])]]
              [{| cell := 2; ename := JStr (py "ValueError");
                  evalue := JStr (py "bad input") |}])
    as [Hs _].
  - reflexivity.
  - reflexivity.
  - reflexivity.
  - destruct (Hs _ (or_introl eq_refl)) as [k [o [Hk [He Hd]]]].
    simpl in Hk. injection Hk as <-. exists 1, o. split; assumption.
Defined.

Lemma check_saved_outputs_descriptors_witness :
  exists errs,
    check_saved_outputs (RT := scripted saved_notebooks) 0 (Path_of (py "one.ipynb"))
    = inr errs.
Proof.
  destruct (@check_saved_outputs_descriptors nat (scripted saved_notebooks))
    as [H _].
  destruct (H 0 (Path_of (py "one.ipynb")) one_error_notebook
              [JDict [(py "cell_type", JStr (py "code"));
                      (py "outputs", JList [value_error])]])
    as [errs [E _]].
  - reflexivity.
  - reflexivity.
  - reflexivity.
  - exists errs; exact E.
Defined.

(** ** The loop of [main] *)

Section Driver.

Context {World : Type} {RT : Runtime World}.

Lemma for_loop_app (c : bool) (l1 l2 : list Path) (st : state World) :
  for_loop c (l1 ++ l2) st =
  match for_loop c l1 st with
  | (st', None) => for_loop c l2 st'
  | (st', Some e) => (st', Some e)
  end.
Proof.
  revert st; induction l1 as [|nb l1 IH]; intros st; [reflexivity|].
  simpl. destruct (body c nb st) as [st' [e|]]; [reflexivity | apply IH].
Qed.

(** The lines of a report are printed lines. *)
Lemma print_errors_prints (errs : list descriptor) :
  forallb is_print (fst (print_errors errs)) = true.
Proof.
  induction errs as [|d errs IH]; [reflexivity|]. cbn [print_errors].
  destruct (encodable (error_text d)); [|reflexivity].
  destruct (print_errors errs) as [lines r]. exact IH.
Qed.




(** A notebook that fails sets [all_passed] to false. *)
Lemma body_fails (c : bool) (nb : Path) (st : state World) :
  fails c (world st) nb ->
  exists st' r, body c nb st = (st', r) /\ all_passed st' = false.
Proof.
  unfold fails, body. destruct c.
  - intros [errs [E NE]]. rewrite E. destruct errs as [|d errs]; [congruence|].
    destruct (print_errors (d :: errs)) as [lines r].
    eexists; eexists; split; reflexivity.
  - intros [w' [msg E]]. rewrite E. eexists; eexists; split; reflexivity.
Qed.




(** [all_passed] is never set back to [True]. *)
Lemma body_keeps_failure (c : bool) (nb : Path) (st st' : state World) (r : option exn) :
  body c nb st = (st', r) -> all_passed st = false -> all_passed st' = false.
Proof.
  unfold body. intros H F. destruct c.
  - destruct (check_saved_outputs (world st) nb) as [e | [|d errs]];
      [| |destruct (print_errors (d :: errs)) as [lines raised]];
      injection H as <- <-; simpl; auto.
  - destruct (run_notebook (world st) nb) as [w' [e | [[|] msg]]];
      injection H as <- <-; simpl; auto.
Qed.

Lemma for_loop_keeps_failure (c : bool) (nbs : list Path) :
  forall (st st' : state World) (r : option exn),
    for_loop c nbs st = (st', r) -> all_passed st = false -> all_passed st' = false.
Proof.
  induction nbs as [|nb nbs IH]; intros st st' r H F.
  - injection H as <- <-. exact F.
  - simpl in H. destruct (body c nb st) as [st1 [e|]] eqn:B.
    + injection H as <- <-. apply (body_keeps_failure c nb st st1 _ B F).
    + apply (IH st1 st' r H). apply (body_keeps_failure c nb st st1 _ B F).
Qed.

(** What one notebook adds to the trace. *)
Lemma body_block (c : bool) (nb : Path) (st st' : state World) (r : option exn) :
  body c nb st = (st', r) ->
  exists b, trace st' = trace st ++ b /\ block c nb b.
Proof.
  unfold body, block. intros H. destruct c.
  - destruct (check_saved_outputs (world st) nb) as [e | [|d errs]];
      [| |pose proof (print_errors_prints (d :: errs)) as PP;
          destruct (print_errors (d :: errs)) as [lines raised]; cbn [fst] in PP];
      injection H as <- <-; simpl trace.
    + exists [Open nb]. split; [reflexivity|]. exists []. simpl. auto.
    + exists [Open nb; print ([CHECK_MARK] ++ py " " ++ name nb ++ py ": OK")].
      rewrite <- app_assoc. split; [reflexivity|].
      exists [print ([CHECK_MARK] ++ py " " ++ name nb ++ py ": OK")].
      split; [reflexivity|]. split; [reflexivity|].
      right. exists CHECK_MARK, (py "OK" ++ [LF]), []. unfold print.
      rewrite <- !app_assoc. reflexivity.
    + exists (Open nb
              :: print ([CROSS_MARK] ++ py " " ++ name nb ++ py ": "
                        ++ of_nat (List.length (d :: errs)) ++ py " error(s)")
              :: lines).
      rewrite <- !app_assoc. split; [reflexivity|].
      exists (print ([CROSS_MARK] ++ py " " ++ name nb ++ py ": "
                     ++ of_nat (List.length (d :: errs)) ++ py " error(s)")
              :: lines).
      split; [|split; [reflexivity|]].
      * cbn [forallb]. rewrite PP. reflexivity.
      * right. exists CROSS_MARK,
          (of_nat (List.length (d :: errs)) ++ py " error(s)" ++ [LF]), lines.
        unfold print. rewrite <- !app_assoc. reflexivity.
  - assert (P : print_end_space (py "  Running " ++ name nb ++ py "...")
                = Print (py "  Running " ++ name nb ++ py "... ")).
    { unfold print_end_space. rewrite <- !app_assoc. reflexivity. }
    rewrite P in H.
    destruct (run_notebook (world st) nb) as [w' [e | [[|] msg]]];
      injection H as <- <-; simpl trace.
    + eexists. split; [reflexivity|]. exists []. split; reflexivity.
    + eexists. rewrite <- app_assoc. split; [reflexivity|].
      exists [print [CHECK_MARK]]. split; reflexivity.
    + eexists. rewrite <- app_assoc. split; [reflexivity|].
      exists [print [CROSS_MARK]; print (py "    Error: " ++ msg)]. split; reflexivity.
Qed.

(** What the loop adds to the trace: one block for each notebook it got
    to, in the order of the list; all of them when no exception left it. *)
Lemma for_loop_blocks (c : bool) (nbs : list Path) :
  forall (st st' : state World) (r : option exn),
    for_loop c nbs st = (st', r) ->
    exists done rest blocks,
      nbs = done ++ rest
      /\ (r = None -> rest = [])
      /\ Forall2 (block c) done blocks
      /\ trace st' = trace st ++ List.concat blocks.
Proof.
  induction nbs as [|nb nbs IH]; intros st st' r H.
  - injection H as <- <-. exists [], [], []. simpl. rewrite app_nil_r.
    split; [reflexivity|]. split; [reflexivity|]. split; [constructor | reflexivity].
  - simpl in H. destruct (body c nb st) as [st1 [e|]] eqn:B.
    + injection H as <- <-. destruct (body_block c nb st st1 _ B) as [b [T Bl]].
      exists [nb], nbs, [b]. simpl. rewrite app_nil_r.
      split; [reflexivity|]. split; [discriminate|].
      split; [repeat constructor; exact Bl | exact T].
    + destruct (body_block c nb st st1 _ B) as [b [T Bl]].
      destruct (IH st1 st' r H) as [done [rest [blocks [-> [Hr [F T']]]]]].
      exists (nb :: done), rest, (b :: blocks). simpl.
      split; [reflexivity|]. split; [exact Hr|].
      split; [constructor; assumption|].
      rewrite T', T, <- app_assoc. reflexivity.
Qed.

Lemma for_loop_extends (c : bool) (nbs : list Path) (st st' : state World) (r : option exn) :
  for_loop c nbs st = (st', r) -> exists t, trace st' = trace st ++ t.
Proof.
  intros H. destruct (for_loop_blocks c nbs st st' r H) as [_ [_ [blocks [_ [_ [_ T]]]]]].
  exists (List.concat blocks); exact T.
Qed.

(** [main] when there is a notebook. *)
Lemma main_loop (w : World) (argv : list pystr) :
  notebooks_of w argv <> [] ->
  main w argv =
  match for_loop (check_only_of argv) (sorted path_ltb (notebooks_of w argv)) (start w argv) with
  | (st', Some e) => {| final := world st'; events := trace st'; result := inl e |}
  | (st', None) =>
      if all_passed st'
      then {| final := world st';
              events := trace st' ++ [print []; print (py "All notebooks passed! " ++ [CHECK_MARK])];
              result := inr 0%Z |}
      else {| final := world st';
              events := trace st' ++ [print []; print (py "Some notebooks have errors.")];
              result := inr 1%Z |}
  end.
Proof.
  intros NE. unfold main. destruct (notebooks_of w argv); [congruence | reflexivity].
Qed.

Lemma at_notebook_nonempty (w : World) (argv : list pystr) (before : list Path)
      (nb : Path) (after : list Path) (st : state World) :
  at_notebook w argv before nb after st -> notebooks_of w argv <> [].
Proof.
  intros [E _] N. rewrite N in E. destruct before; discriminate.
Qed.

(** From a notebook the run has got to, the loop goes on with that
    notebook. *)
Lemma at_notebook_loop (w : World) (argv : list pystr) (before : list Path)
      (nb : Path) (after : list Path) (st : state World) :
  at_notebook w argv before nb after st ->
  for_loop (check_only_of argv) (sorted path_ltb (notebooks_of w argv)) (start w argv)
  = for_loop (check_only_of argv) (nb :: after) st.
Proof. intros [E L]. rewrite E, for_loop_app, L. reflexivity. Qed.

(** Once a notebook has failed the run ends with status 1. *)
Lemma failure_is_final (w : World) (argv : list pystr) (before : list Path)
      (nb : Path) (after : list Path) (st : state World) :
  at_notebook w argv before nb after st ->
  fails (check_only_of argv) (world st) nb ->
  exit_status (main w argv) = 1%Z.
Proof.
  intros A F.
  rewrite (main_loop w argv (at_notebook_nonempty _ _ _ _ _ _ A)).
  rewrite (at_notebook_loop _ _ _ _ _ _ A). cbn [for_loop].
  destruct (body_fails _ nb st F) as [st1 [r [-> F1]]].
  destruct r as [e|]; [reflexivity|].
  destruct (for_loop (check_only_of argv) after st1) as [st2 [e|]] eqn:L; [reflexivity|].
  rewrite (for_loop_keeps_failure _ after st1 st2 None L F1). reflexivity.
Qed.


End Driver.

Section Run.

Context {World : Type} {RT : Runtime World}.




(** C5.  When no notebook is found, in either mode, the run prints
    [No notebooks found.] and a newline, nothing else happens, and the
    process exits with status 0. *)
Theorem no_notebooks_found :
  forall (w : World) (argv : list pystr),
    notebooks_of w argv = [] ->
    events (main w argv) = [Print (py "No notebooks found." ++ [LF])]
    /\ stdout (events (main w argv)) = py "No notebooks found." ++ [LF]
    /\ result (main w argv) = inr 0%Z
    /\ exit_status (main w argv) = 0%Z
    /\ final (main w argv) = w.
Proof.
  intros w argv E. unfold exit_status, main. rewrite E. simpl. repeat split.
Qed.



End Run.

(** *** The theorems above at concrete runs *)


Lemma no_notebooks_found_witness :
  stdout (events (main (RT := scripted saved_notebooks) 0 [SCRIPT; py "--check"]))
  = py "No notebooks found." ++ [LF].
Proof.
  apply (no_notebooks_found (RT := scripted saved_notebooks) 0 [SCRIPT; py "--check"]).
  reflexivity.
Defined.




(** ** The order of paths and [sorted] *)

Section LexOrder.

Variable A : Type.
Variable eq lt : A -> A -> bool.
Hypothesis eq_spec : forall x y, eq x y = true <-> x = y.
Hypothesis order : strict_order lt.

Lemma eq_refl_true (x : A) : eq x x = true.
Proof. apply eq_spec; reflexivity. Qed.

Lemma eq_false (x y : A) : x <> y -> eq x y = false.
Proof.
  intros N. destruct (eq x y) eqn:E; [|reflexivity]. apply eq_spec in E. contradiction.
Qed.

Lemma lex_irrefl (a : list A) : lex_ltb eq lt a a = false.
Proof.
  induction a as [|x a IH]; [reflexivity|]. simpl. rewrite eq_refl_true. exact IH.
Qed.

Lemma lex_total (a : list A) :
  forall b, lex_ltb eq lt a b = true \/ a = b \/ lex_ltb eq lt b a = true.
Proof.
  induction a as [|x a IH]; intros [|y b]; simpl; auto.
  destruct (eq x y) eqn:E.
  - apply eq_spec in E; subst y. rewrite eq_refl_true.
    destruct (IH b) as [H | [-> | H]]; auto.
  - assert (N : x <> y) by (intros ->; rewrite eq_refl_true in E; discriminate).
    rewrite (eq_false y x) by congruence.
    destruct (lt_total order x y) as [H | [H | H]]; [auto | contradiction | auto].
Qed.

Lemma lex_trans (a : list A) :
  forall b c,
    lex_ltb eq lt a b = true -> lex_ltb eq lt b c = true -> lex_ltb eq lt a c = true.
Proof.
  induction a as [|x a IH]; intros [|y b] [|z c]; simpl; try discriminate; auto.
  destruct (eq x y) eqn:Exy; destruct (eq y z) eqn:Eyz; intros H1 H2.
  - apply eq_spec in Exy, Eyz; subst. rewrite eq_refl_true. apply (IH b c H1 H2).
  - apply eq_spec in Exy; subst. rewrite Eyz. exact H2.
  - apply eq_spec in Eyz; subst. rewrite Exy. exact H1.
  - destruct (eq x z) eqn:Exz.
    + apply eq_spec in Exz; subst.
      pose proof (lt_trans order _ _ _ H1 H2) as C.
      rewrite (lt_irrefl order) in C. discriminate.
    + apply (lt_trans order _ _ _ H1 H2).
Qed.

Lemma lex_strict_order : strict_order (lex_ltb eq lt).
Proof.
  constructor; [exact lex_irrefl | exact lex_trans | intros x y; apply lex_total].
Qed.

End LexOrder.

Lemma N_ltb_strict_order : strict_order N.ltb.
Proof.
  constructor.
  - apply N.ltb_irrefl.
  - intros x y z. rewrite !N.ltb_lt. apply N.lt_trans.
  - intros x y. rewrite !N.ltb_lt. apply N.lt_trichotomy.
Qed.

Lemma str_ltb_strict_order : strict_order PyStr.ltb.
Proof. apply lex_strict_order; [exact N.eqb_eq | exact N_ltb_strict_order]. Qed.

Lemma parts_ltb_strict_order : strict_order parts_ltb.
Proof. apply lex_strict_order; [exact eqb_eq | exact str_ltb_strict_order]. Qed.

(** Sorting by a key that is strictly and totally ordered. *)
Section KeySort.

Variables A K : Type.
Variable key : A -> K.
Variable ltK : K -> K -> bool.
Variable lt : A -> A -> bool.
Hypothesis order : strict_order ltK.
Hypothesis lt_key : forall a b, lt a b = ltK (key a) (key b).

Lemma le_trans_key (x y z : K) :
  ltK y x = false -> ltK z y = false -> ltK z x = false.
Proof.
  intros H1 H2. destruct (ltK z x) eqn:E; [|reflexivity].
  destruct (lt_total order y z) as [H | [-> | H]]; [|congruence|congruence].
  rewrite (lt_trans order _ _ _ H E) in H1. discriminate.
Qed.

Lemma lt_asym_key (x y : K) : ltK x y = true -> ltK y x = false.
Proof.
  intros H. destruct (ltK y x) eqn:E; [|reflexivity].
  pose proof (lt_trans order _ _ _ H E) as C.
  rewrite (lt_irrefl order) in C. discriminate.
Qed.

Lemma insert_perm (x : A) (l : list A) : Permutation (x :: l) (insert lt x l).
Proof.
  induction l as [|y l IH]; simpl; [apply Permutation_refl|].
  destruct (lt y x); [|apply Permutation_refl].
  apply perm_trans with (y :: x :: l); [apply perm_swap | apply perm_skip, IH].
Qed.

Lemma sorted_perm (l : list A) : Permutation l (sorted lt l).
Proof.
  induction l as [|x l IH]; simpl; [constructor|].
  apply perm_trans with (x :: sorted lt l); [apply perm_skip, IH | apply insert_perm].
Qed.

Lemma insert_sorted (x : A) (l : list A) :
  StronglySorted (fun a b => lt b a = false) l ->
  StronglySorted (fun a b => lt b a = false) (insert lt x l).
Proof.
  induction 1 as [|y l S IH F]; simpl; [repeat constructor|].
  destruct (lt y x) eqn:E.
  - constructor; [exact IH|].
    apply Forall_forall. intros z Hz.
    apply (Permutation_in _ (Permutation_sym (insert_perm x l))) in Hz.
    destruct Hz as [<- | Hz].
    + rewrite lt_key in *. apply lt_asym_key, E.
    + rewrite Forall_forall in F. apply F, Hz.
  - constructor; [constructor; assumption|].
    constructor; [exact E|].
    apply Forall_forall. intros z Hz. rewrite Forall_forall in F.
    specialize (F z Hz). rewrite lt_key in *. apply (le_trans_key _ _ _ E F).
Qed.

Lemma sorted_sorted (l : list A) :
  StronglySorted (fun a b => lt b a = false) (sorted lt l).
Proof.
  induction l as [|x l IH]; simpl; [constructor | apply insert_sorted, IH].
Qed.

(** Two sorted lists of the same keys are the same list. *)
Lemma sorted_keys_unique (k1 : list K) :
  forall k2,
    StronglySorted (fun a b => ltK b a = false) k1 ->
    StronglySorted (fun a b => ltK b a = false) k2 ->
    Permutation k1 k2 -> k1 = k2.
Proof.
  induction k1 as [|a k1 IH]; intros k2 S1 S2 P.
  - apply Permutation_nil in P. congruence.
  - destruct k2 as [|b k2]; [apply Permutation_sym, Permutation_nil in P; discriminate|].
    inversion S1 as [|? ? S1' F1]; inversion S2 as [|? ? S2' F2]; subst.
    rewrite Forall_forall in F1, F2.
    assert (E : a = b).
    { assert (Hab : ltK b a = false).
      { assert (Hin : In b (a :: k1))
          by (apply (Permutation_in _ (Permutation_sym P)); left; reflexivity).
        destruct Hin as [-> | Hin]; [apply (lt_irrefl order) | apply F1, Hin]. }
      assert (Hba : ltK a b = false).
      { assert (Hin : In a (b :: k2)) by (apply (Permutation_in _ P); left; reflexivity).
        destruct Hin as [-> | Hin]; [apply (lt_irrefl order) | apply F2, Hin]. }
      destruct (lt_total order a b) as [H | [H | H]]; congruence. }
    subst b. f_equal. apply IH; [assumption | assumption |].
    apply (Permutation_cons_inv P).
Qed.

Lemma sorted_keys (l : list A) :
  StronglySorted (fun a b => ltK b a = false) (List.map key (sorted lt l)).
Proof.
  pose proof (sorted_sorted l) as S.
  induction S as [|x s S IH F]; simpl; constructor; [exact IH|].
  apply Forall_forall. intros k Hk. apply in_map_iff in Hk as [y [<- Hy]].
  rewrite Forall_forall in F. rewrite <- lt_key. apply F, Hy.
Qed.

(** The keys of the sorted list do not depend on the order of the list
    that is sorted. *)
Lemma sorted_order_independent (l l' : list A) :
  Permutation l l' ->
  List.map key (sorted lt l) = List.map key (sorted lt l').
Proof.
  intros P. apply sorted_keys_unique; try apply sorted_keys.
  apply Permutation_map.
  apply perm_trans with l; [apply Permutation_sym, sorted_perm|].
  apply perm_trans with l'; [exact P | apply sorted_perm].
Qed.

End KeySort.

(** *** Paths as [pathlib] parses them *)

Lemma split_no_sep (sep : codepoint) (c : pystr) :
  existsb (N.eqb sep) c = false -> split sep c = [c].
Proof.
  induction c as [|x c IH]; [reflexivity|]. cbn [existsb split].
  intros H. apply orb_false_iff in H as [Hx Hc].
  rewrite N.eqb_sym, Hx, (IH Hc). reflexivity.
Qed.

Lemma split_app_sep (sep : codepoint) (c s : pystr) :
  existsb (N.eqb sep) c = false -> split sep (c ++ sep :: s) = c :: split sep s.
Proof.
  induction c as [|x c IH]; cbn [existsb split app].
  - intros _. rewrite N.eqb_refl. reflexivity.
  - intros H. apply orb_false_iff in H as [Hx Hc].
    rewrite N.eqb_sym, Hx, (IH Hc). reflexivity.
Qed.

(** [sep.join(fields).split(sep)] gives the fields back when there is
    one at least and none holds the separator. *)
Lemma split_join (sep : codepoint) (fields : list pystr) :
  fields <> [] ->
  forallb (fun c => negb (existsb (N.eqb sep) c)) fields = true ->
  split sep (join [sep] fields) = fields.
Proof.
  induction fields as [|c fields IH]; [congruence|]. intros _ H.
  cbn [forallb] in H. apply andb_true_iff in H as [Hc H]. apply negb_true_iff in Hc.
  destruct fields as [|c' fields].
  - apply split_no_sep, Hc.
  - change (join [sep] (c :: c' :: fields)) with (c ++ sep :: join [sep] (c' :: fields)).
    rewrite (split_app_sep _ _ _ Hc), IH; [reflexivity | discriminate | exact H].
Qed.

Lemma split_sep_free (sep : codepoint) (s : pystr) :
  forallb (fun c => negb (existsb (N.eqb sep) c)) (split sep s) = true.
Proof.
  induction s as [|x s IH]; [reflexivity|]. cbn [split].
  destruct (N.eqb x sep) eqn:E; [exact IH|].
  pose proof (split_nonempty sep s) as NE.
  destruct (split sep s) as [|f fs]; [congruence|].
  cbn [forallb existsb] in *. rewrite N.eqb_sym, E. exact IH.
Qed.

Lemma is_root_cases (r : pystr) :
  is_root r = true -> r = [] \/ r = [SLASH] \/ r = [SLASH; SLASH].
Proof.
  unfold is_root. intros H.
  apply orb_true_iff in H as [H | H]; [apply orb_true_iff in H as [H | H]|];
    apply eqb_eq in H; auto.
Qed.

Lemma splitroot_root (arg : pystr) : is_root (fst (splitroot arg)) = true.
Proof.
  destruct arg as [|a [|b [|c r]]]; cbn [splitroot]; try reflexivity;
    repeat match goal with
           | |- context [N.eqb ?x SLASH] => destruct (N.eqb x SLASH)
           end; reflexivity.
Qed.

(** [Path(arg)] is a parsed path. *)
Lemma Path_of_parsed (arg : pystr) : parsed (Path_of arg) = true.
Proof.
  unfold Path_of. destruct arg as [|a arg]; [reflexivity|].
  pose proof (splitroot_root (a :: arg)) as R.
  destruct (splitroot (a :: arg)) as [rt rel]. unfold parsed. cbn [root tail fst] in *.
  rewrite R. cbn [andb]. apply forallb_forall. intros c Hc.
  apply filter_In in Hc as [Hin Hc]. unfold is_component. rewrite Hc. cbn [andb].
  pose proof (split_sep_free SLASH rel) as F. rewrite forallb_forall in F.
  apply F, Hin.
Qed.

(** The key of a parsed path from CPython 3.12 on: an empty string for
    each character of the root, then the components; with no component,
    [.] for the empty path and one more empty string after a root. *)
Lemma parts_normcase_parsed (p : Path) :
  parsed p = true ->
  parts_normcase p
  = List.map (fun _ => []) (root p)
    ++ match tail p with
       | [] => [match root p with [] => [DOT] | _ => [] end]
       | t => t
       end.
Proof.
  destruct p as [r t]. unfold parsed, parts_normcase, path_str. cbn [root tail].
  intros H. apply andb_true_iff in H as [R T].
  destruct t as [|c t].
  - destruct (is_root_cases r R) as [-> | [-> | ->]]; reflexivity.
  - assert (F : forallb (fun c => negb (existsb (N.eqb SLASH) c)) (c :: t) = true).
    { apply forallb_forall. intros x Hx. rewrite forallb_forall in T.
      specialize (T x Hx). unfold is_component in T.
      apply andb_true_iff in T as [_ T]. exact T. }
    assert (S : split SLASH (join [SLASH] (c :: t)) = c :: t)
      by (apply split_join; [discriminate | exact F]).
    assert (N : exists x s, join [SLASH] (c :: t) = x :: s).
    { cbn [forallb] in T. apply andb_true_iff in T as [T _]. unfold is_component in T.
      destruct c as [|x c]; [discriminate|].
      destruct t; cbn [join app]; eexists; eexists; reflexivity. }
    destruct N as [x [s N]].
    destruct (is_root_cases r R) as [-> | [-> | ->]]; cbn [app List.map];
      rewrite N; rewrite N in S; cbn [split]; rewrite ?N.eqb_refl; cbn [split] in S;
      rewrite ?S; reflexivity.
Qed.

Section PathKey.

Context {World : Type} {RT : Runtime World}.

(** Parsed paths with the same key are the same path: [==] on paths,
    which compares the keys, is equality. *)
Lemma path_key_inj (a b : Path) :
  parsed a = true -> parsed b = true -> path_key a = path_key b -> a = b.
Proof.
  intros Pa Pb. unfold path_key. destruct python_3_12.
  - rewrite (parts_normcase_parsed a Pa), (parts_normcase_parsed b Pb).
    destruct a as [ra ta], b as [rb tb]. unfold parsed in Pa, Pb. cbn [root tail] in *.
    apply andb_true_iff in Pa as [Ra Ta]. apply andb_true_iff in Pb as [Rb Tb].
    destruct (is_root_cases ra Ra) as [-> | [-> | ->]];
      destruct (is_root_cases rb Rb) as [-> | [-> | ->]];
      destruct ta as [|ca ta]; destruct tb as [|cb tb]; cbn [List.map app];
      intros H; try reflexivity; try discriminate;
      injection H; intros; subst; try reflexivity;
      cbn in Ta, Tb; discriminate.
  - destruct a as [ra ta], b as [rb tb]. unfold parsed, cparts in *. cbn [root tail] in *.
    apply andb_true_iff in Pa as [Ra Ta]. apply andb_true_iff in Pb as [Rb Tb].
    destruct (is_root_cases ra Ra) as [-> | [-> | ->]];
      destruct (is_root_cases rb Rb) as [-> | [-> | ->]];
      intros H; try discriminate; try (injection H; intros);
      subst; try reflexivity; cbn in Ta, Tb; discriminate.
Qed.

(** The key of a relative path with components is the list of its
    components, whatever the version. *)
Lemma path_key_relative (p : Path) :
  parsed p = true -> root p = [] -> tail p <> [] -> path_key p = tail p.
Proof.
  intros P R T. unfold path_key. destruct python_3_12.
  - rewrite (parts_normcase_parsed p P), R. destruct (tail p); [congruence | reflexivity].
  - unfold cparts. rewrite R. reflexivity.
Qed.

End PathKey.

Section PathOrder.

Context {World : Type} {RT : Runtime World}.

Lemma sorted_paths_sorted (l : list Path) :
  StronglySorted path_le (sorted path_ltb l).
Proof.
  apply (sorted_sorted Path (list pystr) path_key parts_ltb path_ltb
           parts_ltb_strict_order (fun a b => eq_refl)).
Qed.

Lemma sorted_paths_perm (l : list Path) : Permutation l (sorted path_ltb l).
Proof. apply sorted_perm. Qed.

(** The keys of the sorted paths do not depend on the order of the list
    that is sorted. *)
Lemma sorted_paths_keys_independent (l l' : list Path) :
  Permutation l l' ->
  List.map path_key (sorted path_ltb l) = List.map path_key (sorted path_ltb l').
Proof.
  apply (sorted_order_independent Path (list pystr) path_key parts_ltb
           path_ltb parts_ltb_strict_order (fun a b => eq_refl)).
Qed.

(** The sorted list itself does not depend on that order when the paths
    are parsed paths. *)
Lemma sorted_paths_independent (l l' : list Path) :
  forallb parsed l = true ->
  Permutation l l' ->
  sorted path_ltb l = sorted path_ltb l'.
Proof.
  intros W P.
  assert (W1 : forall x, In x (sorted path_ltb l) -> parsed x = true).
  { intros x Hx. rewrite forallb_forall in W. apply W.
    apply (Permutation_in _ (Permutation_sym (sorted_paths_perm l))), Hx. }
  assert (W2 : forall x, In x (sorted path_ltb l') -> parsed x = true).
  { intros x Hx. rewrite forallb_forall in W. apply W.
    apply (Permutation_in _ (Permutation_sym P)).
    apply (Permutation_in _ (Permutation_sym (sorted_paths_perm l'))), Hx. }
  pose proof (sorted_paths_keys_independent l l' P) as K.
  revert W1 W2 K. generalize (sorted path_ltb l) (sorted path_ltb l').
  induction l0 as [|x l0 IH]; intros [|y l1] W1 W2 K; try discriminate; [reflexivity|].
  cbn [List.map] in K. injection K as Kx K.
  rewrite (path_key_inj x y (W1 x (or_introl eq_refl)) (W2 y (or_introl eq_refl)) Kx).
  f_equal. apply IH; [| |exact K]; intros z Hz; [apply W1 | apply W2]; right; exact Hz.
Qed.

End PathOrder.

(** ** The whole run *)

Section Order.

Context {World : Type} {RT : Runtime World}.

(** The events of a run: a printed line, one block for each notebook the
    run got to, in sorted order, and printed lines; the run got to every
    notebook when [main] returned. *)
Lemma main_blocks (w : World) (argv : list pystr) :
  exists done rest blocks header footer,
    sorted path_ltb (notebooks_of w argv) = done ++ rest
    /\ (forall code, result (main w argv) = inr code -> rest = [])
    /\ Forall2 (block (check_only_of argv)) done blocks
    /\ events (main w argv) = header :: List.concat blocks ++ footer
    /\ is_print header = true
    /\ forallb is_print footer = true.
Proof.
  destruct (notebooks_of w argv) as [|nb0 nbs] eqn:N.
  - exists [], [], [], (print (py "No notebooks found.")), [].
    unfold main. rewrite N. simpl. repeat split; constructor.
  - assert (NE : notebooks_of w argv <> []) by congruence.
    rewrite <- N. rewrite (main_loop w argv NE).
    destruct (for_loop (check_only_of argv) (sorted path_ltb (notebooks_of w argv))
                (start w argv)) as [st' r] eqn:L.
    destruct (for_loop_blocks _ _ _ _ _ L) as [done [rest [blocks [E [Hr [F T]]]]]].
    exists done, rest, blocks. eexists.
    destruct r as [e|].
    + exists []. split; [exact E|]. split; [discriminate|]. split; [exact F|].
      simpl events. rewrite T, app_nil_r. split; [reflexivity|]. split; reflexivity.
    + destruct (all_passed st'); eexists;
        (split; [exact E|]); (split; [intros _ _; apply Hr; reflexivity|]);
        (split; [exact F|]); simpl events; rewrite T;
        (split; [reflexivity|]); split; reflexivity.
Qed.

Lemma block_attempt (c : bool) (nb : Path) (b : list event) :
  block c nb b -> filter is_attempt b = [attempt c nb].
Proof.
  assert (P : forall prints, forallb is_print prints = true -> filter is_attempt prints = []).
  { induction prints as [|e prints IH]; [reflexivity|]. simpl.
    intros H. apply andb_true_iff in H as [He H]. unfold is_attempt at 1.
    rewrite He. simpl. apply IH, H. }
  intros [prints [Hp H]]. destruct c.
  - destruct H as [-> _]. simpl. rewrite (P prints Hp). reflexivity.
  - rewrite H. simpl. rewrite (P prints Hp). reflexivity.
Qed.

(** The files opened or sub-processes launched by a run are those of the
    notebooks it got to, one each, in sorted order, all by the means of
    the one mode of the run. *)
Lemma main_attempts (w : World) (argv : list pystr) :
  exists done rest,
    sorted path_ltb (notebooks_of w argv) = done ++ rest
    /\ (forall code, result (main w argv) = inr code -> rest = [])
    /\ filter is_attempt (events (main w argv))
       = List.map (attempt (check_only_of argv)) done.
Proof.
  destruct (main_blocks w argv)
    as [done [rest [blocks [header [footer [E [Hr [F [Ev [Hh Hf]]]]]]]]]].
  exists done, rest. split; [exact E|]. split; [exact Hr|].
  rewrite Ev. simpl. unfold is_attempt at 1. rewrite Hh. simpl.
  rewrite filter_app.
  assert (Z : filter is_attempt footer = []).
  { clear - Hf. induction footer as [|e footer IH]; [reflexivity|]. simpl in *.
    apply andb_true_iff in Hf as [He Hf]. unfold is_attempt at 1.
    rewrite He. simpl. apply IH, Hf. }
  rewrite Z, app_nil_r. clear - F.
  induction F as [|nb b done blocks Hb _ IH]; [reflexivity|].
  simpl. rewrite filter_app, (block_attempt _ _ _ Hb), IH. reflexivity.
Qed.

(** [main] reads the command line through [check_only_of] and [args_of]
    only. *)
Lemma main_ext (w : World) (argv argv' : list pystr) :
  check_only_of argv = check_only_of argv' ->
  args_of argv = args_of argv' ->
  main w argv = main w argv'.
Proof.
  intros C A. unfold main, start, notebooks_of. rewrite C, A. reflexivity.
Qed.

Lemma check_only_spec (argv : list pystr) :
  check_only_of argv = true <-> In (py "--check") argv.
Proof.
  unfold check_only_of. rewrite existsb_exists. split.
  - intros [a [Hin E]]. apply eqb_eq in E. subst a. exact Hin.
  - intros Hin. exists (py "--check"). split; [exact Hin | apply eqb_refl].
Qed.

End Order.

Section CommandLine.

Context {World : Type} {RT : Runtime World}.

(** C8.  Whatever the command line and the directory scan give, the
    notebooks are gone through in the order [sorted] puts them in: the
    same notebooks, each no greater than those after it in the order of
    [pathlib] paths.  That order compares two paths by their keys, lists
    of strings, lexicographically, each string by code point, a proper
    prefix first; it is not the lexicographic order of the path strings.
    The key is [str(path).split('/')] from CPython 3.12 on, and the root,
    when there is one, followed by the components before; for a relative
    path with components it is the list of the components in both, so
    [a/x.ipynb] comes before [a.ipynb].  The keys of the paths in sorted
    order are the same for every order of discovery, and so is the sorted
    list itself when the paths are as [pathlib] parses them, which those
    of explicit arguments are.  The files opened or sub-processes
    launched by the run are those of the notebooks in that order, up to
    the point the run got to, and the lines of each notebook are printed
    with them.  With [b.ipynb] and [a.ipynb] given in that order,
    [a.ipynb] is processed and printed first. *)
Theorem notebooks_processed_in_sorted_order :
  (forall (w : World) (argv : list pystr),
      StronglySorted path_le (sorted path_ltb (notebooks_of w argv))
      /\ Permutation (notebooks_of w argv) (sorted path_ltb (notebooks_of w argv))
      /\ (forall discovered,
            Permutation (notebooks_of w argv) discovered ->
            List.map path_key (sorted path_ltb discovered)
            = List.map path_key (sorted path_ltb (notebooks_of w argv))
            /\ (forallb parsed (notebooks_of w argv) = true ->
                sorted path_ltb discovered
                = sorted path_ltb (notebooks_of w argv)))
      /\ (args_of argv <> [] -> forallb parsed (notebooks_of w argv) = true)
      /\ exists done rest blocks header footer,
           sorted path_ltb (notebooks_of w argv) = done ++ rest
           /\ (forall code, result (main w argv) = inr code -> rest = [])
           /\ filter is_attempt (events (main w argv))
              = List.map (attempt (check_only_of argv)) done
           /\ Forall2 (block (check_only_of argv)) done blocks
           /\ events (main w argv) = header :: List.concat blocks ++ footer
           /\ is_print header = true
           /\ forallb is_print footer = true)
  /\ (forall a b : Path,
        path_ltb a b
        = lex_ltb PyStr.eqb (lex_ltb N.eqb N.ltb) (path_key a) (path_key b))
  /\ (forall p : Path,
        path_key p
        = if python_3_12 then split SLASH (path_str p)
          else match root p with
               | [] => tail p
               | r => r :: tail p
               end)
  /\ (forall p : Path,
        parsed p = true -> root p = [] -> tail p <> [] -> path_key p = tail p)
  /\ (forall (w : World) (prog : pystr),
        sorted path_ltb (notebooks_of w [prog; py "a.ipynb"; py "a/x.ipynb"])
        = [Path_of (py "a/x.ipynb"); Path_of (py "a.ipynb")])
  /\ (forall (w : World) (prog : pystr),
        sorted path_ltb (notebooks_of w [prog; py "b.ipynb"; py "a.ipynb"])
        = [Path_of (py "a.ipynb"); Path_of (py "b.ipynb")])
  /\ stdout (events (main (RT := scripted all_pass) 0
                          [SCRIPT; py "b.ipynb"; py "a.ipynb"]))
     = py "Running 2 notebook(s)..." ++ [LF; LF]
       ++ py "  Running a.ipynb... " ++ [CHECK_MARK; LF]
       ++ py "  Running b.ipynb... " ++ [CHECK_MARK; LF]
       ++ [LF] ++ py "All notebooks passed! " ++ [CHECK_MARK; LF].
Proof.
  split; [|split; [|split; [|split; [|split; [|split]]]]].
  - intros w argv.
    split; [apply sorted_paths_sorted|]. split; [apply sorted_paths_perm|].
    split.
    { intros discovered P. split.
      - apply sorted_paths_keys_independent, Permutation_sym, P.
      - intros W. symmetry. apply sorted_paths_independent; assumption. }
    split.
    { intros NE. unfold notebooks_of.
      destruct (args_of argv) as [|arg args]; [congruence|].
      apply forallb_forall. intros p Hp.
      apply in_map_iff in Hp as [x [<- _]]. apply Path_of_parsed. }
    destruct (main_blocks w argv)
      as [done [rest [blocks [header [footer [E [Hr [F [Ev [Hh Hf]]]]]]]]]].
    exists done, rest, blocks, header, footer.
    split; [exact E|]. split; [exact Hr|]. split.
    + rewrite Ev. simpl. unfold is_attempt at 1. rewrite Hh. simpl.
      rewrite filter_app.
      assert (Z : filter is_attempt footer = []).
      { clear - Hf. induction footer as [|e footer IH]; [reflexivity|]. simpl in *.
        apply andb_true_iff in Hf as [He Hf]. unfold is_attempt at 1.
        rewrite He. simpl. apply IH, Hf. }
      rewrite Z, app_nil_r. clear - F.
      induction F as [|nb b done blocks Hb _ IH]; [reflexivity|].
      simpl. rewrite filter_app, (block_attempt _ _ _ Hb), IH. reflexivity.
    + repeat split; assumption.
  - reflexivity.
  - intros p. unfold path_key, parts_normcase, cparts. reflexivity.
  - apply path_key_relative.
  - intros w prog.
    change (notebooks_of w [prog; py "a.ipynb"; py "a/x.ipynb"])
      with [Path_of (py "a.ipynb"); Path_of (py "a/x.ipynb")].
    unfold sorted, fold_right, insert, path_ltb, path_key.
    destruct python_3_12; reflexivity.
  - intros w prog.
    change (notebooks_of w [prog; py "b.ipynb"; py "a.ipynb"])
      with [Path_of (py "b.ipynb"); Path_of (py "a.ipynb")].
    unfold sorted, fold_right, insert, path_ltb, path_key.
    destruct python_3_12; reflexivity.
  - reflexivity.
Qed.

(** C9.  [--check] anywhere on the command line (and only that) selects
    inspection mode, and the mode is the same for every notebook of the
    run: every notebook is attempted by opening its file in inspection
    mode and by launching the sub-process in execution mode.  The
    positional arguments are the arguments after the program name that do
    not start with [--], in their order; an argument that starts with
    [--] is never taken for a path, and a run with such an argument other
    than [--check] is the run without it. *)
Theorem flags_select_mode_and_are_dropped :
  forall (w : World) (argv : list pystr),
    (check_only_of argv = true <-> In (py "--check") argv)
    /\ (check_only_of argv = false <-> ~ In (py "--check") argv)
    /\ (exists done,
          filter is_attempt (events (main w argv))
          = List.map (fun nb => if check_only_of argv then Open nb
                                else Launch (command nb)) done)
    /\ args_of argv
       = filter (fun a => negb (startswith a (py "--"))) (List.tl argv)
    /\ (forall a, In a (args_of argv)
                  <-> In a (List.tl argv) /\ startswith a (py "--") = false)
    /\ (args_of argv <> [] -> notebooks_of w argv = List.map Path_of (args_of argv))
    /\ (forall prog l1 flag l2,
          argv = prog :: l1 ++ flag :: l2 ->
          startswith flag (py "--") = true ->
          args_of argv = args_of (prog :: l1 ++ l2)
          /\ (flag <> py "--check" -> main w argv = main w (prog :: l1 ++ l2))).
Proof.
  intros w argv.
  split; [apply check_only_spec|]. split.
  { rewrite <- check_only_spec. destruct (check_only_of argv); split; congruence. }
  split.
  { destruct (main_attempts w argv) as [done [rest [_ [_ E]]]]. exists done. exact E. }
  split; [reflexivity|]. split.
  { intros a. unfold args_of. rewrite filter_In, negb_true_iff. reflexivity. }
  split.
  { intros NE. unfold notebooks_of. destruct (args_of argv); [congruence | reflexivity]. }
  intros prog l1 flag l2 -> Hflag.
  assert (A : args_of (prog :: l1 ++ flag :: l2) = args_of (prog :: l1 ++ l2)).
  { unfold args_of. cbn [List.tl]. rewrite !filter_app. cbn [filter].
    rewrite Hflag. reflexivity. }
  split; [exact A|]. intros Hne. apply main_ext; [|exact A].
  unfold check_only_of. cbn [existsb]. rewrite !existsb_app. cbn [existsb].
  apply eqb_neq in Hne. rewrite Hne. reflexivity.
Qed.

End CommandLine.

Lemma notebooks_processed_in_sorted_order_witness :
  sorted (path_ltb (RT := scripted all_pass))
         [Path_of (py "a.ipynb"); Path_of (py "b.ipynb")]
  = sorted (path_ltb (RT := scripted all_pass))
      (notebooks_of (RT := scripted all_pass) 0 [SCRIPT; py "b.ipynb"; py "a.ipynb"]).
Proof.
  destruct (notebooks_processed_in_sorted_order (RT := scripted all_pass)) as [H _].
  destruct (H 0 [SCRIPT; py "b.ipynb"; py "a.ipynb"]) as [_ [_ [I _]]].
  destruct (I [Path_of (py "a.ipynb"); Path_of (py "b.ipynb")]) as [_ E].
  - apply perm_swap.
  - apply E. reflexivity.
Defined.

(** The order of C8 is not the order of the path strings: with [a.ipynb]
    and [a/x.ipynb] the run goes to [a/x.ipynb] first, on either version
    of Python, while [a.ipynb] is the smaller string. *)
Lemma path_order_is_not_string_order :
  filter is_attempt
    (events (main (RT := scripted all_pass) 0 [SCRIPT; py "a.ipynb"; py "a/x.ipynb"]))
  = [Launch (command (RT := scripted all_pass) (Path_of (py "a/x.ipynb")));
     Launch (command (RT := scripted all_pass) (Path_of (py "a.ipynb")))]
  /\ filter is_attempt
       (events (main (RT := scripted_on false all_pass) 0
                     [SCRIPT; py "a.ipynb"; py "a/x.ipynb"]))
     = [Launch (command (RT := scripted_on false all_pass) (Path_of (py "a/x.ipynb")));
        Launch (command (RT := scripted_on false all_pass) (Path_of (py "a.ipynb")))]
  /\ stdout (events (main (RT := scripted all_pass) 0
                          [SCRIPT; py "a.ipynb"; py "a/x.ipynb"]))
     = py "Running 2 notebook(s)..." ++ [LF; LF]
       ++ py "  Running x.ipynb... " ++ [CHECK_MARK; LF]
       ++ py "  Running a.ipynb... " ++ [CHECK_MARK; LF]
       ++ [LF] ++ py "All notebooks passed! " ++ [CHECK_MARK; LF]
  /\ PyStr.ltb (path_str (Path_of (py "a.ipynb"))) (path_str (Path_of (py "a/x.ipynb")))
     = true.
Proof. repeat split; reflexivity. Qed.

Lemma flags_select_mode_and_are_dropped_witness :
  main (RT := scripted saved_notebooks) 0
       [SCRIPT; py "one.ipynb"; py "--verbose"; py "--check"]
  = main (RT := scripted saved_notebooks) 0 [SCRIPT; py "one.ipynb"; py "--check"].
Proof.
  destruct (flags_select_mode_and_are_dropped (RT := scripted saved_notebooks) 0
              [SCRIPT; py "one.ipynb"; py "--verbose"; py "--check"])
    as [_ [_ [_ [_ [_ [_ H]]]]]].
  destruct (H SCRIPT [py "one.ipynb"] (py "--verbose") [py "--check"]) as [_ E].
  - reflexivity.
  - reflexivity.
  - apply E. vm_compute. discriminate.
Defined.

(** * Further properties *)

(** ** [run_notebook] *)

Section RunNotebookMore.

Context {World : Type} {RT : Runtime World}.

(** X1.  [run_notebook] returns success exactly when the sub-process
    completes with exit status 0; the message is then empty, whatever was
    written to stderr. *)
Theorem run_notebook_succeeds_iff :
  forall (w w' : World) (path : Path) (msg : pystr),
    run_notebook w path = (w', inr (true, msg))
    <-> (exists p, subprocess_run w (command path) = (w', inr p)
                   /\ returncode p = 0%Z)
        /\ msg = [].
Proof.
  intros w w' path msg. unfold run_notebook.
  destruct (subprocess_run w (command path)) as [w1 [e | p]] eqn:S.
  - split.
    + destruct e; intros H; inversion H.
    + intros [[p [H _]] _]. discriminate.
  - destruct (returncode p =? 0)%Z eqn:E; simpl.
    + apply Z.eqb_eq in E. split.
      * intros H. inversion H; subst. split; [exists p; auto | reflexivity].
      * intros [[p' [H _]] ->]. inversion H; subst. reflexivity.
    + apply Z.eqb_neq in E. split.
      * intros H. inversion H.
      * intros [[p' [H Hp]] _]. inversion H; subst. contradiction.
Qed.

(** X2.  [run_notebook] raises exactly when [subprocess.run] raises
    something other than [FileNotFoundError], and raises the same
    exception: only [FileNotFoundError] is caught. *)
Theorem run_notebook_raises_iff :
  forall (w w' : World) (path : Path) (e : exn),
    run_notebook w path = (w', inl e)
    <-> subprocess_run w (command path) = (w', inl e) /\ e <> FileNotFoundError.
Proof.
  intros w w' path e. unfold run_notebook.
  destruct (subprocess_run w (command path)) as [w1 [e1 | p]] eqn:S.
  - destruct e1; split;
      try (intros H; inversion H; subst; split; [reflexivity | discriminate]);
      try (intros [H N]; inversion H; subst; try reflexivity; contradiction);
      intros H; inversion H.
  - split.
    + destruct (negb (returncode p =? 0)%Z); intros H; inversion H.
    + intros [H _]. discriminate.
Qed.

End RunNotebookMore.

Lemma run_notebook_succeeds_iff_witness :
  run_notebook (RT := scripted all_pass) 0 (Path_of (py "a.ipynb")) = (1, inr (true, [])).
Proof.
  apply (run_notebook_succeeds_iff (RT := scripted all_pass)).
  split; [|reflexivity].
  exists {| returncode := 0; stderr := [] |}. split; reflexivity.
Defined.

Lemma run_notebook_raises_iff_witness :
  run_notebook (RT := scripted denied) 0 (Path_of (py "a.ipynb")) = (1, inl PermissionError).
Proof.
  apply (run_notebook_raises_iff (RT := scripted denied)).
  split; [reflexivity | discriminate].
Defined.

(** ** The diagnostic *)

Lemma lstrip_nil_iff (s : pystr) : lstrip s = [] <-> forallb isspace s = true.
Proof.
  induction s as [|c s IH]; simpl; [tauto|].
  destruct (isspace c); simpl; [exact IH | split; discriminate].
Qed.

Lemma lstrip_head (s : pystr) (c : codepoint) (r : pystr) :
  lstrip s = c :: r -> isspace c = false.
Proof.
  induction s as [|x s IH]; simpl; [discriminate|].
  destruct (isspace x) eqn:E; [exact IH | intros H; injection H as <- _; exact E].
Qed.

Lemma forallb_rev {A : Type} (f : A -> bool) (l : list A) :
  forallb f (rev l) = forallb f l.
Proof.
  destruct (forallb f l) eqn:E.
  - rewrite forallb_forall in *. intros x Hx. apply E, in_rev, Hx.
  - destruct (forallb f (rev l)) eqn:E'; [|reflexivity].
    rewrite forallb_forall in E'.
    assert (forallb f l = true) as C; [|congruence].
    apply forallb_forall. intros x Hx. apply E', in_rev. rewrite rev_involutive. exact Hx.
Qed.

(** Only a blank string is stripped to nothing. *)
Lemma strip_nil_iff (s : pystr) : strip s = [] <-> forallb isspace s = true.
Proof.
  unfold strip, rstrip. rewrite <- lstrip_nil_iff. split.
  - intros H. apply (f_equal (@rev _)) in H. rewrite rev_involutive in H. simpl in H.
    apply lstrip_nil_iff in H. rewrite forallb_rev in H.
    destruct (lstrip s) as [|c r] eqn:L; [reflexivity|].
    apply lstrip_head in L. simpl in H. rewrite L in H. discriminate.
  - intros ->. reflexivity.
Qed.

Lemma split_fields (sep : codepoint) (s field : pystr) :
  In field (split sep s) -> ~ In sep field.
Proof.
  revert field; induction s as [|x s IH]; intros field; simpl.
  - intros [<- | []]; intros [].
  - destruct (N.eqb x sep) eqn:E.
    + intros [<- | H]; [intros [] | apply IH, H].
    + pose proof (split_nonempty sep s) as NE.
      destruct (split sep s) as [|f fs]; [congruence|].
      intros [<- | H].
      * intros [-> | H]; [rewrite N.eqb_refl in E; discriminate|].
        revert H; apply IH; left; reflexivity.
      * apply IH; right; exact H.
Qed.

Lemma count_occ_not_in (l : pystr) (c : codepoint) :
  ~ In c l -> count_occ N.eq_dec l c = 0.
Proof. apply count_occ_not_In. Qed.

(** Joining fields that hold no newline gives one newline between two
    fields. *)
Lemma count_join (fields : list pystr) :
  (forall f, In f fields -> ~ In LF f) ->
  count_occ N.eq_dec (join [LF] fields) LF = List.length fields - 1.
Proof.
  induction fields as [|f fields IH]; intros H; [reflexivity|].
  destruct fields as [|g fields].
  - simpl. rewrite count_occ_not_in; [reflexivity | apply H; left; reflexivity].
  - change (join [LF] (f :: g :: fields)) with (f ++ LF :: join [LF] (g :: fields)).
    specialize (IH (fun x Hx => H x (or_intror Hx))).
    set (J := join [LF] (g :: fields)) in *.
    rewrite count_occ_app, (count_occ_cons_eq N.eq_dec _ (eq_refl LF)), IH.
    rewrite count_occ_not_in by (apply H; left; reflexivity).
    simpl. lia.
Qed.

Lemma count_occ_firstn (n : nat) (l : pystr) (c : codepoint) :
  count_occ N.eq_dec (firstn n l) c <= count_occ N.eq_dec l c.
Proof.
  revert n; induction l as [|x l IH]; intros [|n]; simpl; try lia.
  specialize (IH n). destruct (N.eq_dec x c); lia.
Qed.

Lemma in_firstn {A : Type} (n : nat) (l : list A) (x : A) :
  In x (firstn n l) -> In x l.
Proof.
  revert l; induction n as [|n IH]; intros [|a l]; simpl; try tauto.
  intros [<- | H]; [left; reflexivity | right; apply IH, H].
Qed.

(** X3.  When stderr contains [CellExecutionError] the diagnostic holds
    at most two newlines: it is made of at most three lines. *)
Theorem diagnostic_at_most_three_lines :
  forall stderr_text : pystr,
    contains (py "CellExecutionError") stderr_text = true ->
    count_occ N.eq_dec (diagnostic stderr_text) LF <= 2.
Proof.
  intros s H.
  destruct (diagnostic_extract s H) as [before [line [after [E [_ [_ [_ D]]]]]]].
  rewrite D. eapply Nat.le_trans; [apply count_occ_firstn|].
  rewrite count_join.
  - pose proof (firstn_le_length 2 after) as L.
    change (List.length (line :: firstn 2 after))
      with (S (List.length (firstn 2 after))). lia.
  - intros f Hf. apply (split_fields LF (strip s)). rewrite E.
    apply in_or_app. right. destruct Hf as [<- | Hf]; [left; reflexivity|].
    right. apply (in_firstn 2 after f Hf).
Qed.

(** X4.  When stderr contains [CellExecutionError] the lines reported
    start at or before the line that holds it: a line that follows it by
    more than two lines is never part of the diagnostic. *)
Theorem diagnostic_starts_by_marker_line :
  forall stderr_text : pystr,
    contains (py "CellExecutionError") stderr_text = true ->
    exists before line after,
      split LF (strip stderr_text) = before ++ line :: after
      /\ diagnostic stderr_text = firstn 200 (join [LF] (line :: firstn 2 after))
      /\ (exists k l,
            nth_error (split LF (strip stderr_text)) k = Some l
            /\ contains (py "CellExecutionError") l = true)
      /\ (forall k l,
            nth_error (split LF (strip stderr_text)) k = Some l ->
            contains (py "CellExecutionError") l = true ->
            List.length before <= k).
Proof.
  intros s H.
  destruct (diagnostic_extract s H) as [before [line [after [E [Hb [_ [_ D]]]]]]].
  exists before, line, after. split; [exact E|]. split; [exact D|]. split.
  - rewrite <- contains_strip_marker in H.
    destruct (contains_split LF (py "CellExecutionError") (strip s)) as [l [Hin Hc]].
    + vm_compute. intuition discriminate.
    + exact H.
    + apply In_nth_error in Hin as [k Hk]. exists k, l. auto.
  - intros k l Hk Hc.
    destruct (Nat.le_gt_cases (List.length before) k) as [L | L]; [exact L|].
    rewrite E, nth_error_app1 in Hk by exact L.
    apply nth_error_In in Hk. rewrite Forall_forall in Hb. specialize (Hb l Hk).
    unfold is_error_line in Hb. apply orb_false_iff in Hb as [Hb _].
    assert (C : contains (py "Error") l = true)
      by (apply contains_trans with (b := py "CellExecutionError"); [reflexivity | exact Hc]).
    congruence.
Qed.

(** X5.  The diagnostic is empty exactly when stderr is blank (empty or
    white space only). *)
Theorem diagnostic_empty_iff_blank :
  forall stderr_text : pystr,
    diagnostic stderr_text = [] <-> forallb isspace stderr_text = true.
Proof.
  intros s. rewrite <- strip_nil_iff. split.
  - intros D. destruct (contains (py "CellExecutionError") s) eqn:H.
    + destruct (diagnostic_extract s H) as [before [line [after [_ [_ [Hl [_ D']]]]]]].
      rewrite D' in D. destruct line as [|c line]; [discriminate Hl|].
      destruct (firstn 2 after); discriminate D.
    + rewrite diagnostic_truncates, contains_strip_marker, H in D.
      destruct (strip s); [reflexivity | discriminate D].
  - intros E. rewrite diagnostic_truncates, E. reflexivity.
Qed.

Lemma diagnostic_at_most_three_lines_witness :
  count_occ N.eq_dec (diagnostic (stderr failed_process)) LF <= 2.
Proof.
  apply (diagnostic_at_most_three_lines (stderr failed_process)). reflexivity.
Defined.

Lemma diagnostic_starts_by_marker_line_witness :
  exists before line after,
    split LF (strip (stderr failed_process)) = before ++ line :: after
    /\ diagnostic (stderr failed_process)
       = firstn 200 (join [LF] (line :: firstn 2 after)).
Proof.
  destruct (diagnostic_starts_by_marker_line (stderr failed_process))
    as [before [line [after [E [D _]]]]].
  - reflexivity.
  - exists before, line, after. split; assumption.
Defined.

Lemma diagnostic_empty_iff_blank_witness : diagnostic (py "  ") = [].
Proof. apply (diagnostic_empty_iff_blank (py "  ")). reflexivity. Defined.

(** ** The loops of [check_saved_outputs] *)

Section InspectorMore.

Context {World : Type} {RT : Runtime World}.

(** The descriptors found do not depend on those found before. *)
Lemma check_outputs_from_nil (i : nat) (outs : list json) :
  forall errors,
    check_outputs i outs errors
    = (new <- check_outputs i outs [] ;; inr (errors ++ new)).
Proof.
  induction outs as [|o outs IH]; intros errors.
  - simpl. rewrite app_nil_r. reflexivity.
  - rewrite !check_outputs_cons.
    destruct (get o (py "output_type") JNull) as [e | t]; [reflexivity|].
    destruct (is_error_output o); [|apply IH].
    destruct (describe i o) as [e | d]; [reflexivity|]. simpl bind.
    rewrite (IH (errors ++ [d])), (IH [d]).
    destruct (check_outputs i outs []) as [e | new]; [reflexivity|].
    simpl. rewrite <- app_assoc. reflexivity.
Qed.

Lemma check_cells_from_nil (cells : list json) :
  forall i errors,
    check_cells i cells errors
    = (new <- check_cells i cells [] ;; inr (errors ++ new)).
Proof.
  induction cells as [|c cells IH]; intros i errors.
  - simpl. rewrite app_nil_r. reflexivity.
  - rewrite !check_cells_cons.
    destruct (get c (py "cell_type") JNull) as [e | t]; [reflexivity|].
    destruct (is_code_cell c); [|apply IH].
    destruct (outputs_of c) as [e | outs]; [reflexivity|]. simpl bind.
    rewrite (check_outputs_from_nil i outs errors).
    destruct (check_outputs i outs []) as [e | new1]; [reflexivity|]. simpl bind.
    rewrite (IH (S i) (errors ++ new1)), (IH (S i) new1).
    destruct (check_cells (S i) cells []) as [e | new2]; [reflexivity|].
    simpl. rewrite <- app_assoc. reflexivity.
Qed.

Lemma check_outputs_app (i : nat) (l1 l2 : list json) :
  forall errors,
    check_outputs i (l1 ++ l2) errors
    = (errs <- check_outputs i l1 errors ;; check_outputs i l2 errs).
Proof.
  induction l1 as [|o l1 IH]; intros errors; [reflexivity|].
  simpl app. rewrite !check_outputs_cons.
  destruct (get o (py "output_type") JNull) as [e | t]; [reflexivity|].
  destruct (is_error_output o); [|apply IH].
  destruct (describe i o) as [e | d]; [reflexivity|]. simpl bind. apply IH.
Qed.

(** Inspecting a list of cells is inspecting its first part and then the
    rest, with the numbers going on. *)
Lemma check_cells_app (l1 l2 : list json) :
  forall i errors,
    check_cells i (l1 ++ l2) errors
    = (errs <- check_cells i l1 errors ;; check_cells (i + List.length l1) l2 errs).
Proof.
  induction l1 as [|c l1 IH]; intros i errors.
  - simpl. rewrite Nat.add_0_r. reflexivity.
  - simpl app. rewrite !check_cells_cons.
    simpl List.length. rewrite Nat.add_succ_r, <- Nat.add_succ_l.
    destruct (get c (py "cell_type") JNull) as [e | t]; [reflexivity|].
    destruct (is_code_cell c); [|apply IH].
    destruct (outputs_of c) as [e | outs]; [reflexivity|]. simpl bind.
    destruct (check_outputs i outs errors) as [e | errs1]; [reflexivity|]. simpl bind.
    apply IH.
Qed.

(** The number of the cell is all a descriptor takes from it. *)
Lemma describe_bump (i : nat) (o : json) :
  describe (S i) o = (d <- describe i o ;; inr (bump d)).
Proof.
  unfold describe.
  destruct (get o (py "ename") (JStr (py "Unknown"))) as [e | en]; [reflexivity|].
  simpl bind.
  destruct (get o (py "evalue") (JStr [])) as [e | ev]; [reflexivity|]. simpl bind.
  destruct (upto ev 100) as [e | ev']; reflexivity.
Qed.

Lemma check_outputs_bump (i : nat) (outs : list json) :
  check_outputs (S i) outs []
  = (new <- check_outputs i outs [] ;; inr (List.map bump new)).
Proof.
  induction outs as [|o outs IH]; [reflexivity|].
  rewrite !check_outputs_cons.
  destruct (get o (py "output_type") JNull) as [e | t]; [reflexivity|].
  destruct (is_error_output o); [|exact IH].
  rewrite describe_bump.
  destruct (describe i o) as [e | d]; [reflexivity|]. simpl bind.
  rewrite (check_outputs_from_nil (S i) outs [bump d]), IH.
  rewrite (check_outputs_from_nil i outs [d]).
  destruct (check_outputs i outs []) as [e | new]; reflexivity.
Qed.

Lemma check_cells_bump (cells : list json) :
  forall i,
    check_cells (S i) cells []
    = (new <- check_cells i cells [] ;; inr (List.map bump new)).
Proof.
  induction cells as [|c cells IH]; intros i; [reflexivity|].
  rewrite !check_cells_cons.
  destruct (get c (py "cell_type") JNull) as [e | t]; [reflexivity|].
  destruct (is_code_cell c); [|apply IH].
  destruct (outputs_of c) as [e | outs]; [reflexivity|]. simpl bind.
  rewrite check_outputs_bump.
  destruct (check_outputs i outs []) as [e | new1]; [reflexivity|]. simpl bind.
  rewrite (check_cells_from_nil cells (S (S i)) (List.map bump new1)), IH.
  rewrite (check_cells_from_nil cells (S i) new1).
  destruct (check_cells (S i) cells []) as [e | new2]; [reflexivity|].
  simpl. rewrite map_app. reflexivity.
Qed.

(** X6.  A cell that is an object but not a code cell is passed over
    whatever it holds: put anywhere into a list of cells, it leaves the
    descriptors of the cells before it as they are, raises the numbers of
    the cells after it by one, and changes nothing else; if the
    inspection raised without it, it raises the same with it. *)
Theorem non_code_cell_only_shifts_numbers :
  forall (i : nat) (pre : list json) (c : json) (post : list json),
    is_dict c = true ->
    is_code_cell c = false ->
    (forall errs,
        check_cells i (pre ++ post) [] = inr errs ->
        exists e1 e2,
          errs = e1 ++ e2
          /\ check_cells i pre [] = inr e1
          /\ check_cells (i + List.length pre) post [] = inr e2
          /\ check_cells i (pre ++ c :: post) [] = inr (e1 ++ List.map bump e2))
    /\ (forall e,
          check_cells i (pre ++ post) [] = inl e ->
          check_cells i (pre ++ c :: post) [] = inl e).
Proof.
  intros i pre c post Hd Hc.
  assert (E : check_cells i (pre ++ c :: post) []
              = (e1 <- check_cells i pre [] ;;
                 e2 <- check_cells (i + List.length pre) post [] ;;
                 inr (e1 ++ List.map bump e2))).
  { rewrite check_cells_app.
    destruct (check_cells i pre []) as [e | e1]; [reflexivity|]. cbn [bind].
    rewrite check_cells_cons, Hc.
    destruct c; try discriminate Hd. simpl get. cbv iota.
    rewrite (check_cells_from_nil post _ e1), check_cells_bump.
    destruct (check_cells (i + List.length pre) post []) as [e | e2]; reflexivity. }
  assert (F : check_cells i (pre ++ post) []
              = (e1 <- check_cells i pre [] ;;
                 e2 <- check_cells (i + List.length pre) post [] ;;
                 inr (e1 ++ e2))).
  { rewrite check_cells_app.
    destruct (check_cells i pre []) as [e | e1]; [reflexivity|]. simpl bind.
    apply check_cells_from_nil. }
  rewrite E, F. split.
  - intros errs H.
    destruct (check_cells i pre []) as [e | e1]; [discriminate|]. simpl in H.
    destruct (check_cells (i + List.length pre) post []) as [e | e2]; [discriminate|].
    simpl in H. injection H as <-. exists e1, e2. auto.
  - intros e H.
    destruct (check_cells i pre []) as [e' | e1]; [exact H|]. simpl in *.
    destruct (check_cells (i + List.length pre) post []) as [e' | e2];
      [exact H | discriminate].
Qed.

Lemma Forall2_map_pair (i : nat) (outs : list json) (new : list descriptor) :
  Forall2 (fun o d => describe i o = inr d) outs new ->
  Forall2 (fun no d => describe (fst no) (snd no) = inr d) (List.map (pair i) outs) new.
Proof. induction 1; simpl; constructor; assumption. Qed.

Lemma numbered_error_outputs_cons (i : nat) (c : json) (cells : list json) :
  numbered_error_outputs i (c :: cells)
  = List.map (pair i) (error_outputs_of c) ++ numbered_error_outputs (S i) cells.
Proof. reflexivity. Qed.

(** The outer loop appends one descriptor for each error output of each
    code cell, in document order. *)
Lemma check_cells_exact (cells : list json) :
  forall i errors errs,
    check_cells i cells errors = inr errs ->
    exists new,
      errs = errors ++ new
      /\ Forall2 (fun no d => describe (fst no) (snd no) = inr d)
                 (numbered_error_outputs i cells) new.
Proof.
  induction cells as [|c cells IH]; intros i errors errs H.
  - injection H as <-. exists []. rewrite app_nil_r. split; [reflexivity | constructor].
  - rewrite check_cells_cons in H. rewrite numbered_error_outputs_cons.
    destruct (get c (py "cell_type") JNull) as [e | t]; [discriminate|].
    unfold error_outputs_of. destruct (is_code_cell c).
    + apply bind_inr in H as [outs [Houts H]].
      apply bind_inr in H as [errors' [Hinner H]].
      destruct (check_outputs_acc _ _ _ _ Hinner) as [new1 [-> F1]].
      destruct (IH _ _ _ H) as [new2 [-> F2]].
      exists (new1 ++ new2). rewrite <- app_assoc. split; [reflexivity|].
      rewrite Houts. apply Forall2_app; [apply Forall2_map_pair, F1 | exact F2].
    + apply IH, H.
Qed.

(** X7.  When [check_saved_outputs] returns, its list holds exactly one
    descriptor for each output tagged [error] of each code cell, in the
    order of the document: as many descriptors as there are such outputs,
    and the cell numbers, in order, are those of their cells. *)
Theorem check_saved_outputs_one_per_error :
  forall (w : World) (path : Path) (notebook : json) (cells : list json)
         (errs : list descriptor),
    load w path = inr notebook ->
    cells_of notebook = inr cells ->
    check_saved_outputs w path = inr errs ->
    Forall2 (fun no d => describe (fst no) (snd no) = inr d)
            (numbered_error_outputs 1 cells) errs
    /\ List.map cell errs = List.map fst (numbered_error_outputs 1 cells)
    /\ List.length errs = List.length (flat_map error_outputs_of cells).
Proof.
  intros w path notebook cells errs L C H.
  rewrite (check_saved_outputs_loaded w path notebook L) in H.
  unfold cells_of in C. unfold inspect in H.
  destruct (get notebook (py "cells") (JList [])) as [e | v]; [discriminate|].
  simpl in C, H. rewrite C in H. simpl in H.
  destruct (check_cells_exact cells 1 [] errs H) as [new [-> F]]. simpl app.
  split; [exact F|]. split.
  - clear - F. induction F as [|[n o] d l l' Hd _ IH]; [reflexivity|].
    simpl. rewrite IH. f_equal. apply (describe_cell _ _ _ Hd).
  - rewrite <- (Forall2_length F). unfold numbered_error_outputs.
    generalize 1. clear. induction cells as [|c cells IH]; intros n; [reflexivity|].
    simpl. rewrite !length_app, length_map, IH. reflexivity.
Qed.

(** X8.  When [check_saved_outputs] returns, the list is empty exactly
    when no code cell of the document holds an output tagged [error]. *)
Theorem check_saved_outputs_clean_iff :
  forall (w : World) (path : Path) (notebook : json) (cells : list json)
         (errs : list descriptor),
    load w path = inr notebook ->
    cells_of notebook = inr cells ->
    check_saved_outputs w path = inr errs ->
    (errs = [] <-> forall k o, ~ error_output_at cells k o).
Proof.
  intros w path notebook cells errs L C H.
  rewrite (check_saved_outputs_loaded w path notebook L) in H.
  destruct (inspect_acc notebook cells errs C H) as [Hs [Hc _]]. split.
  - intros -> k o He. destruct (Hc k o He) as [d [[] _]].
  - intros N. destruct errs as [|d errs]; [reflexivity|].
    destruct (Hs d (or_introl eq_refl)) as [k [o [He _]]].
    exfalso. apply (N k o He).
Qed.

End InspectorMore.

Lemma non_code_cell_only_shifts_numbers_witness :
  check_cells (RT := scripted saved_notebooks) 1
    ([] ++ JDict [(py "cell_type", JStr (py "markdown"))]
        :: [JDict [(py "cell_type", JStr (py "code"));
                   (py "outputs", JList [value_error])]]) []
  = inr ([] ++ List.map bump
                [{| cell := 1; ename := JStr (py "ValueError");
                    evalue := JStr (py "bad input") |}]).
Proof.
  destruct (non_code_cell_only_shifts_numbers (RT := scripted saved_notebooks) 1 []
              (JDict [(py "cell_type", JStr (py "markdown"))])
              [JDict [(py "cell_type", JStr (py "code"));
                      (py "outputs", JList [value_error])]]
              eq_refl eq_refl) as [H _].
  destruct (H [{| cell := 1; ename := JStr (py "ValueError");
                  evalue := JStr (py "bad input") |}] eq_refl)
    as [e1 [e2 [E [H1 [H2 H3]]]]].
  injection H1 as <-. injection H2 as <-. exact H3.
Defined.

Lemma check_saved_outputs_one_per_error_witness :
  List.length [{| cell := 2; ename := JStr (py "ValueError");
                  evalue := JStr (py "bad input") |}]
  = List.length
      (flat_map error_outputs_of
         [JDict [(py "cell_type", JStr (py "markdown"))];
          JDict [(py "cell_type", JStr (py "code")); (py "outputs", JList [value_error])];
          JDict [(py "cell_type", JStr (py "code")); (py "outputs", JList [])]]).
Proof.
  apply (check_saved_outputs_one_per_error (RT := scripted saved_notebooks)
           0 (Path_of (py "three.ipynb")) three_cell_notebook);
    reflexivity.
Defined.

Lemma check_saved_outputs_clean_iff_witness :
  @nil descriptor = []
  <-> (forall k o,
          ~ error_output_at [JDict [(py "cell_type", JStr (py "markdown"))]] k o).
Proof.
  apply (check_saved_outputs_clean_iff (RT := scripted
           {| procs := [];
              files := [(py "md.ipynb",
                         inr (JDict [(py "cells",
                                      JList [JDict [(py "cell_type", JStr (py "markdown"))]])]))];
              found := [] |})
           0 (Path_of (py "md.ipynb"))
           (JDict [(py "cells", JList [JDict [(py "cell_type", JStr (py "markdown"))]])])
           [JDict [(py "cell_type", JStr (py "markdown"))]] []);
    reflexivity.
Defined.

(** ** Documents that are not of the specified format *)

Section Malformed.

Context {World : Type} {RT : Runtime World}.

Lemma inspect_cells (notebook : json) (cells : list json) :
  cells_of notebook = inr cells -> inspect notebook = check_cells 1 cells [].
Proof.
  unfold cells_of, inspect.
  destruct (get notebook (py "cells") (JList [])) as [e | v]; [discriminate|].
  simpl. intros ->. reflexivity.
Qed.

Lemma iter_not_iterable (v : json) : iterable v = false -> iter v = inl TypeError.
Proof. destruct v; simpl; intros H; try reflexivity; discriminate. Qed.

Lemma upto_not_sliceable (v : json) (n : nat) :
  sliceable v = false ->
  upto v n
  = inl (if is_dict v then if python_3_12 then KeyError else TypeError else TypeError).
Proof. destruct v; simpl; intros H; try reflexivity; discriminate. Qed.

(** X9.  On a loaded document: when the top-level value is not an object
    [check_saved_outputs] raises [AttributeError]; when it is an object
    whose [cells] is a number, a boolean or [null] it raises [TypeError];
    when it is an object without [cells] it returns the empty list. *)
Theorem check_saved_outputs_top_level :
  forall (w : World) (path : Path) (notebook : json),
    load w path = inr notebook ->
    (is_dict notebook = false -> check_saved_outputs w path = inl AttributeError)
    /\ (forall d,
          notebook = JDict d ->
          iterable (dict_get d (py "cells") (JList [])) = false ->
          check_saved_outputs w path = inl TypeError)
    /\ (forall d,
          notebook = JDict d ->
          ~ In (py "cells") (List.map fst d) ->
          check_saved_outputs w path = inr []).
Proof.
  intros w path notebook L.
  rewrite (check_saved_outputs_loaded w path notebook L). split; [|split].
  - intros H. destruct notebook; try reflexivity. discriminate.
  - intros d -> H. unfold inspect. simpl get. cbn [bind].
    rewrite (iter_not_iterable _ H). reflexivity.
  - intros d -> H. unfold inspect. simpl get. cbn [bind].
    rewrite (dict_get_absent d _ _ H). reflexivity.
Qed.

(** X10.  On a loaded document whose cells before some cell are inspected
    without exception: when that cell is not an object
    [check_saved_outputs] raises [AttributeError]; when it is a code cell
    whose [outputs] is a number, a boolean or [null] it raises
    [TypeError].  The descriptors found in the cells before are not
    returned. *)
Theorem check_saved_outputs_wrong_cell :
  forall (w : World) (path : Path) (notebook : json)
         (pre : list json) (c : json) (post : list json) (found_before : list descriptor),
    load w path = inr notebook ->
    cells_of notebook = inr (pre ++ c :: post) ->
    check_cells 1 pre [] = inr found_before ->
    (is_dict c = false -> check_saved_outputs w path = inl AttributeError)
    /\ (forall d,
          c = JDict d ->
          is_code_cell c = true ->
          iterable (dict_get d (py "outputs") (JList [])) = false ->
          check_saved_outputs w path = inl TypeError).
Proof.
  intros w path notebook pre c post e1 L C P.
  rewrite (check_saved_outputs_loaded w path notebook L), (inspect_cells _ _ C).
  rewrite check_cells_app, P. cbn [bind]. rewrite check_cells_cons. split.
  - intros H. destruct c; try reflexivity. discriminate.
  - intros d -> Hc H. rewrite Hc. simpl get. cbv iota.
    unfold outputs_of. simpl get. cbn [bind].
    rewrite (iter_not_iterable _ H). reflexivity.
Qed.

(** X11.  On a loaded document inspected without exception up to some
    output of a code cell: when that output is tagged [error] and its
    [evalue] is a number, a boolean or [null], [check_saved_outputs]
    raises [TypeError], whatever the [ename]. *)
Theorem check_saved_outputs_wrong_evalue :
  forall (w : World) (path : Path) (notebook : json)
         (pre : list json) (c : json) (post : list json)
         (outs_before : list json) (o : json) (outs_after : list json)
         (d : list (pystr * json))
         (found_before found_in_cell : list descriptor),
    load w path = inr notebook ->
    cells_of notebook = inr (pre ++ c :: post) ->
    check_cells 1 pre [] = inr found_before ->
    is_code_cell c = true ->
    outputs_of c = inr (outs_before ++ o :: outs_after) ->
    check_outputs (1 + List.length pre) outs_before found_before = inr found_in_cell ->
    o = JDict d ->
    is_error_output o = true ->
    sliceable (dict_get d (py "evalue") (JStr [])) = false ->
    is_dict (dict_get d (py "evalue") (JStr [])) = false ->
    check_saved_outputs w path = inl TypeError.
Proof.
  intros w path notebook pre c post ob o oa d e1 e2 L C P Hc Ho Pb -> He Hs Hd.
  rewrite (check_saved_outputs_loaded w path notebook L), (inspect_cells _ _ C).
  rewrite check_cells_app, P. cbn [bind]. rewrite check_cells_cons, Hc, Ho.
  assert (G : exists t, get c (py "cell_type") JNull = inr t).
  { unfold is_code_cell in Hc.
    destruct (get c (py "cell_type") JNull) as [e | t]; [discriminate | exists t; reflexivity]. }
  destruct G as [t ->]. cbn [bind].
  rewrite check_outputs_app, Pb. cbn [bind]. rewrite check_outputs_cons, He.
  simpl get. cbv iota.
  unfold describe. simpl get. cbn [bind].
  rewrite (upto_not_sliceable _ 100 Hs), Hd. reflexivity.
Qed.

End Malformed.

Lemma check_saved_outputs_top_level_witness :
  check_saved_outputs (RT := scripted odd_notebooks) 0 (Path_of (py "list.ipynb"))
  = inl AttributeError.
Proof.
  destruct (check_saved_outputs_top_level (RT := scripted odd_notebooks)
              0 (Path_of (py "list.ipynb")) (JList []) eq_refl) as [H _].
  apply H. reflexivity.
Defined.

Lemma check_saved_outputs_wrong_cell_witness :
  check_saved_outputs
    (RT := scripted {| procs := [];
                       files := [(py "n.ipynb",
                                  inr (JDict [(py "cells", JList [JInt 3])]))];
                       found := [] |})
    0 (Path_of (py "n.ipynb"))
  = inl AttributeError.
Proof.
  destruct (check_saved_outputs_wrong_cell
              (RT := scripted {| procs := [];
                                 files := [(py "n.ipynb",
                                            inr (JDict [(py "cells", JList [JInt 3])]))];
                                 found := [] |})
              0 (Path_of (py "n.ipynb")) (JDict [(py "cells", JList [JInt 3])])
              [] (JInt 3) [] [] eq_refl eq_refl eq_refl) as [H _].
  apply H. reflexivity.
Defined.

Lemma check_saved_outputs_wrong_evalue_witness :
  check_saved_outputs (RT := scripted odd_notebooks) 0 (Path_of (py "null.ipynb"))
  = inl TypeError.
Proof.
  apply (check_saved_outputs_wrong_evalue (RT := scripted odd_notebooks)
           0 (Path_of (py "null.ipynb")) null_evalue_notebook
           [] (JDict [(py "cell_type", JStr (py "code"));
                      (py "outputs", JList [null_evalue])]) []
           [] null_evalue []
           [(py "output_type", JStr (py "error"));
            (py "ename", JStr (py "ValueError"));
            (py "evalue", JNull)] [] []);
    reflexivity.
Defined.

(** ** Runs *)

Section RunMore.

Context {World : Type} {RT : Runtime World}.

(** The inspector does not change the world. *)
Lemma body_inspection_world (nb : Path) (st st' : state World) (r : option exn) :
  body true nb st = (st', r) -> world st' = world st.
Proof.
  unfold body. destruct (check_saved_outputs (world st) nb) as [e | [|d errs]].
  - intros H. injection H as <- _. reflexivity.
  - intros H. injection H as <- _. reflexivity.
  - destruct (print_errors (d :: errs)) as [lines raised].
    intros H. injection H as <- _. reflexivity.
Qed.

Lemma for_loop_inspection_world (nbs : list Path) :
  forall (st st' : state World) (r : option exn),
    for_loop true nbs st = (st', r) -> world st' = world st.
Proof.
  induction nbs as [|nb nbs IH]; intros st st' r H.
  - injection H as <- _. reflexivity.
  - cbn [for_loop] in H. destruct (body true nb st) as [st1 r1] eqn:B.
    pose proof (body_inspection_world _ _ _ _ B) as W.
    destruct r1 as [e|]; [injection H as <- _; exact W|].
    rewrite (IH st1 st' r H). exact W.
Qed.


(** X12.  In inspection mode, at a notebook the run has got to: when the
    file loads but [check_saved_outputs] raises on its content, nothing
    catches the exception and the run ends there, with no status line, no
    later notebook and no summary; the process exits with status 1. *)
Theorem inspection_exception_ends_run :
  forall (w : World) (argv : list pystr) (before : list Path) (nb : Path)
         (after : list Path) (st : state World) (notebook : json) (e : exn),
    at_notebook w argv before nb after st ->
    check_only_of argv = true ->
    load (world st) nb = inr notebook ->
    inspect notebook = inl e ->
    result (main w argv) = inl e
    /\ events (main w argv) = trace st ++ [Open nb]
    /\ final (main w argv) = world st
    /\ exit_status (main w argv) = 1%Z.
Proof.
  intros w argv before nb after st notebook e A C L I.
  assert (K : check_saved_outputs (world st) nb = inl e)
    by (rewrite (check_saved_outputs_loaded _ _ _ L); exact I).
  unfold exit_status.
  rewrite (main_loop w argv (at_notebook_nonempty _ _ _ _ _ _ A)).
  rewrite (at_notebook_loop _ _ _ _ _ _ A). simpl for_loop.
  unfold body. rewrite C, K. simpl. auto.
Qed.




(** X16.  A run in inspection mode launches no sub-process and leaves
    the world as it found it; a run in execution mode opens no notebook
    file. *)
Theorem modes_keep_apart :
  forall (w : World) (argv : list pystr),
    (check_only_of argv = true ->
     final (main w argv) = w
     /\ forall cmd, ~ In (Launch cmd) (events (main w argv)))
    /\ (check_only_of argv = false ->
        forall path, ~ In (Open path) (events (main w argv))).
Proof.
  intros w argv.
  destruct (main_attempts w argv) as [done [rest [_ [_ E]]]].
  assert (F : forall e, In e (events (main w argv)) -> is_attempt e = true ->
                        exists nb, e = attempt (check_only_of argv) nb).
  { intros e Hin Ha.
    assert (I : In e (filter is_attempt (events (main w argv))))
      by (apply filter_In; auto).
    rewrite E in I. apply in_map_iff in I as [nb [<- _]]. exists nb; reflexivity. }
  split; intros C.
  - split.
    + destruct (notebooks_of w argv) as [|nb0 nbs] eqn:N.
      * unfold main. rewrite N. reflexivity.
      * assert (NE : notebooks_of w argv <> []) by congruence.
        rewrite (main_loop w argv NE).
        destruct (for_loop (check_only_of argv) (sorted path_ltb (notebooks_of w argv))
                    (start w argv)) as [st' r] eqn:L.
        rewrite C in L. apply for_loop_inspection_world in L.
        destruct r as [e|]; [|destruct (all_passed st')]; exact L.
    + intros cmd Hin. destruct (F _ Hin eq_refl) as [nb H].
      rewrite C in H. discriminate.
  - intros path Hin. destruct (F _ Hin eq_refl) as [nb H].
    rewrite C in H. discriminate.
Qed.

(** X17.  When [main] returns, it returns 0 or 1 and the last line
    printed says which: [Some notebooks have errors.] for 1, and for 0
    [All notebooks passed!] with the check mark when there were notebooks
    and [No notebooks found.] when there were none. *)
Theorem summary_agrees_with_result :
  forall (w : World) (argv : list pystr) (code : Z),
    result (main w argv) = inr code ->
    exists t last,
      events (main w argv) = t ++ [Print (last ++ [LF])]
      /\ ((code = 1%Z /\ last = py "Some notebooks have errors.")
          \/ (code = 0%Z /\ notebooks_of w argv <> []
              /\ last = py "All notebooks passed! " ++ [CHECK_MARK])
          \/ (code = 0%Z /\ notebooks_of w argv = []
              /\ last = py "No notebooks found.")).
Proof.
  intros w argv code.
  destruct (notebooks_of w argv) as [|nb0 nbs] eqn:N.
  - unfold main. rewrite N. simpl. intros H. injection H as <-.
    exists [], (py "No notebooks found."). split; [reflexivity|]. right; right. auto.
  - assert (NE : notebooks_of w argv <> []) by congruence.
    rewrite <- N. rewrite (main_loop w argv NE).
    destruct (for_loop (check_only_of argv) (sorted path_ltb (notebooks_of w argv))
                (start w argv)) as [st' [e|]]; [discriminate|].
    destruct (all_passed st'); simpl; intros H; injection H as <-.
    + exists (trace st' ++ [print []]), (py "All notebooks passed! " ++ [CHECK_MARK]).
      split; [rewrite <- app_assoc; reflexivity|]. right; left. auto.
    + exists (trace st' ++ [print []]), (py "Some notebooks have errors.").
      split; [rewrite <- app_assoc; reflexivity|]. left. auto.
Qed.


(** X19.  When [main] returns after going through notebooks, the number
    announced in the first line is the number of files opened or
    sub-processes launched by the run. *)
Theorem announced_count_is_attempted :
  forall (w : World) (argv : list pystr) (code : Z),
    result (main w argv) = inr code ->
    notebooks_of w argv <> [] ->
    exists rest,
      events (main w argv)
      = Print ((if check_only_of argv then py "Checking saved outputs" else py "Running")
               ++ py " "
               ++ of_nat (List.length (filter is_attempt (events (main w argv))))
               ++ py " notebook(s)..." ++ [LF; LF])
        :: rest.
Proof.
  intros w argv code R NE.
  destruct (main_attempts w argv) as [done [rest [E [Hr A]]]].
  rewrite (Hr code R), app_nil_r in E. subst done.
  rewrite A, length_map.
  rewrite <- (Permutation_length (sorted_paths_perm (notebooks_of w argv))).
  rewrite (main_loop w argv NE).
  destruct (for_loop (check_only_of argv) (sorted path_ltb (notebooks_of w argv))
              (start w argv)) as [st' r] eqn:L.
  destruct (for_loop_extends _ _ _ _ _ L) as [t T].
  assert (H : trace (start w argv)
              = [Print ((if check_only_of argv then py "Checking saved outputs"
                         else py "Running")
                        ++ py " " ++ of_nat (List.length (notebooks_of w argv))
                        ++ py " notebook(s)..." ++ [LF; LF])]).
  { unfold start, print. cbn [trace]. rewrite <- !app_assoc. reflexivity. }
  rewrite H in T.
  destruct r as [e|]; [|destruct (all_passed st')]; simpl events; rewrite T;
    eexists; reflexivity.
Qed.

(** X20.  Without positional arguments, the run attempts nothing but
    notebooks the directory scan found whose path does not contain
    [.ipynb_checkpoints], and when [main] returns it has attempted every
    one of these. *)
Theorem discovery_skips_checkpoints :
  forall (w : World) (argv : list pystr),
    args_of argv = [] ->
    (forall e,
        In e (events (main w argv)) ->
        is_attempt e = true ->
        exists nb,
          e = attempt (check_only_of argv) nb
          /\ In nb (glob w)
          /\ contains (py ".ipynb_checkpoints") (path_str nb) = false)
    /\ (forall code nb,
          result (main w argv) = inr code ->
          In nb (glob w) ->
          contains (py ".ipynb_checkpoints") (path_str nb) = false ->
          In (attempt (check_only_of argv) nb) (events (main w argv))).
Proof.
  intros w argv Hargs.
  assert (N : forall nb,
             In nb (sorted path_ltb (notebooks_of w argv))
             <-> In nb (glob w)
                 /\ contains (py ".ipynb_checkpoints") (path_str nb) = false).
  { intros nb. unfold notebooks_of. rewrite Hargs. split.
    - intros H.
      apply (Permutation_in _ (Permutation_sym (sorted_paths_perm _))) in H.
      apply filter_In in H. destruct H as [H1 H2].
      apply negb_true_iff in H2. auto.
    - intros [H1 H2]. apply (Permutation_in _ (sorted_paths_perm _)).
      apply filter_In. split; [exact H1 | apply negb_true_iff; exact H2]. }
  destruct (main_attempts w argv) as [done [rest [E [Hr A]]]]. split.
  - intros e Hin Ha.
    assert (I : In e (filter is_attempt (events (main w argv))))
      by (apply filter_In; auto).
    rewrite A in I. apply in_map_iff in I as [nb [<- Hnb]].
    exists nb. split; [reflexivity|]. apply N. rewrite E.
    apply in_or_app; left; exact Hnb.
  - intros code nb R Hg Hc.
    rewrite (Hr code R), app_nil_r in E. subst done.
    assert (I : In (attempt (check_only_of argv) nb)
                   (filter is_attempt (events (main w argv)))).
    { rewrite A. apply in_map. apply N. auto. }
    apply filter_In in I. apply I.
Qed.

End RunMore.

(** *** The properties of runs at concrete runs *)

Lemma inspection_exception_ends_run_witness :
  result (main (RT := scripted odd_notebooks) 0
               [SCRIPT; py "--check"; py "list.ipynb"; py "one.ipynb"])
  = inl AttributeError.
Proof.
  apply (inspection_exception_ends_run (RT := scripted odd_notebooks) 0
           [SCRIPT; py "--check"; py "list.ipynb"; py "one.ipynb"]
           [] (Path_of (py "list.ipynb")) [Path_of (py "one.ipynb")]
           (start (RT := scripted odd_notebooks) 0
                  [SCRIPT; py "--check"; py "list.ipynb"; py "one.ipynb"])
           (JList []) AttributeError).
  - split; reflexivity.
  - reflexivity.
  - reflexivity.
  - reflexivity.
Defined.




Lemma modes_keep_apart_witness :
  final (main (RT := scripted saved_notebooks) 0 [SCRIPT; py "--check"; py "one.ipynb"])
  = 0.
Proof.
  destruct (modes_keep_apart (RT := scripted saved_notebooks) 0
              [SCRIPT; py "--check"; py "one.ipynb"]) as [H _].
  destruct (H eq_refl) as [F _]. exact F.
Defined.

Lemma summary_agrees_with_result_witness :
  exists t last,
    events (main (RT := scripted failing_run) 0 [SCRIPT; py "nb.ipynb"])
    = t ++ [Print (last ++ [LF])].
Proof.
  destruct (summary_agrees_with_result (RT := scripted failing_run) 0
              [SCRIPT; py "nb.ipynb"] 1%Z) as [t [last [E _]]].
  - reflexivity.
  - exists t, last. exact E.
Defined.


Lemma announced_count_is_attempted_witness :
  exists rest,
    events (main (RT := scripted all_pass) 0 [SCRIPT; py "b.ipynb"; py "a.ipynb"])
    = Print (py "Running 2 notebook(s)..." ++ [LF; LF]) :: rest.
Proof.
  destruct (announced_count_is_attempted (RT := scripted all_pass) 0
              [SCRIPT; py "b.ipynb"; py "a.ipynb"] 0%Z) as [rest E].
  - reflexivity.
  - vm_compute; discriminate.
  - exists rest. exact E.
Defined.

Lemma discovery_skips_checkpoints_witness :
  In (Launch (command (RT := scripted with_checkpoint) (Path_of (py "demo/intro.ipynb"))))
     (events (main (RT := scripted with_checkpoint) 0 [SCRIPT])).
Proof.
  destruct (discovery_skips_checkpoints (RT := scripted with_checkpoint) 0 [SCRIPT])
    as [_ H].
  - reflexivity.
  - apply (H 0%Z (Path_of (py "demo/intro.ipynb"))).
    + reflexivity.
    + right; left; reflexivity.
    + reflexivity.
Defined.

(** ** Where a failure comes from *)

Section Verdict.

Context {World : Type} {RT : Runtime World}.

(** A notebook whose body raises nothing has passed or failed. *)
Lemma body_verdict (c : bool) (nb : Path) (st st1 : state World) :
  body c nb st = (st1, None) ->
  (passes c (world st) nb /\ all_passed st1 = all_passed st)
  \/ (fails c (world st) nb /\ all_passed st1 = false).
Proof.
  unfold body, passes, fails. destruct c.
  - destruct (check_saved_outputs (world st) nb) as [e | [|d errs]];
      [discriminate | |].
    + intros H. injection H as <-. left. auto.
    + destruct (print_errors (d :: errs)) as [lines raised].
      intros H. injection H as <- _.
      right. split; [|reflexivity]. eexists. split; [reflexivity | discriminate].
  - destruct (run_notebook (world st) nb) as [w' [e | [[|] msg]]];
      intros H; [discriminate | |]; injection H as <-.
    + left. split; [|reflexivity]. exists w', msg. reflexivity.
    + right. split; [|reflexivity]. exists w', msg. reflexivity.
Qed.

(** A loop that turns [all_passed] from true to false has got to a
    notebook that failed. *)
Lemma for_loop_failure_source (c : bool) (nbs : list Path) :
  forall st st' : state World,
    for_loop c nbs st = (st', None) ->
    all_passed st = true ->
    all_passed st' = false ->
    exists before nb after st1,
      nbs = before ++ nb :: after
      /\ for_loop c before st = (st1, None)
      /\ fails c (world st1) nb.
Proof.
  induction nbs as [|nb nbs IH]; intros st st' L T F.
  - injection L as <-. congruence.
  - cbn [for_loop] in L. destruct (body c nb st) as [st1 [e|]] eqn:B; [discriminate|].
    destruct (body_verdict c nb st st1 B) as [[_ P] | [Hf _]].
    + destruct (IH st1 st' L) as [before [nb' [after [st2 [E [L' Hf]]]]]];
        [congruence | exact F |].
      exists (nb :: before), nb', after, st2. split; [rewrite E; reflexivity|].
      split; [|exact Hf]. cbn [for_loop]. rewrite B. exact L'.
    + exists [], nb, nbs, st. auto.
Qed.

(** X21.  When [main] returns, it returns 1 exactly when the run got to
    a notebook that failed (the executor returned failure, or the
    inspector returned at least one descriptor): it never reports errors
    when every notebook passed. *)
Theorem result_one_iff_failure :
  forall (w : World) (argv : list pystr) (code : Z),
    result (main w argv) = inr code ->
    (code = 1%Z
     <-> exists before nb after st,
           at_notebook w argv before nb after st
           /\ fails (check_only_of argv) (world st) nb).
Proof.
  intros w argv code R. split.
  - intros ->.
    destruct (notebooks_of w argv) as [|nb0 nbs] eqn:N.
    { unfold main in R. rewrite N in R. discriminate. }
    assert (NE : notebooks_of w argv <> []) by congruence.
    rewrite (main_loop w argv NE) in R.
    destruct (for_loop (check_only_of argv) (sorted path_ltb (notebooks_of w argv))
                (start w argv)) as [st' [e|]] eqn:L; [discriminate|].
    destruct (all_passed st') eqn:P; [discriminate|].
    destruct (for_loop_failure_source _ _ _ _ L eq_refl P)
      as [before [nb [after [st1 [E [L' Hf]]]]]].
    exists before, nb, after, st1. split; [split; assumption | exact Hf].
  - intros [before [nb [after [st [A Hf]]]]].
    pose proof (failure_is_final w argv before nb after st A Hf) as X.
    unfold exit_status in X. rewrite R in X. exact X.
Qed.

End Verdict.

Lemma result_one_iff_failure_witness :
  exists before nb after st,
    at_notebook (RT := scripted failing_run) 0 [SCRIPT; py "nb.ipynb"] before nb after st
    /\ fails (RT := scripted failing_run) false (world st) nb.
Proof.
  apply (result_one_iff_failure (RT := scripted failing_run) 0
           [SCRIPT; py "nb.ipynb"] 1%Z); reflexivity.
Defined.

(** ** Where the version of Python shows *)

Section Versions.

Context {World : Type} {RT : Runtime World}.

Lemma component_is_no_root (r c : pystr) :
  is_root r = true -> r <> [] -> is_component c = true -> PyStr.eqb r c = false.
Proof.
  intros R N C. destruct (PyStr.eqb r c) eqn:E; [|reflexivity].
  apply eqb_eq in E. subst c.
  destruct (is_root_cases r R) as [-> | [-> | ->]]; [congruence | discriminate C | discriminate C].
Qed.

(** X22.  An absolute path and a relative path with components are
    ordered differently by the versions of Python: from CPython 3.12 on
    the absolute path always comes first; before, the root ([/] or [//])
    is compared as a string with the first component of the relative
    path, so that a relative path starting with a character before [/]
    comes first. *)
Theorem absolute_and_relative_paths :
  forall a b : Path,
    parsed a = true ->
    parsed b = true ->
    root a <> [] ->
    root b = [] ->
    tail b <> [] ->
    path_ltb a b = (if python_3_12 then true else PyStr.ltb (root a) (hd [] (tail b)))
    /\ path_ltb b a = (if python_3_12 then false else PyStr.ltb (hd [] (tail b)) (root a)).
Proof.
  intros a b Pa Pb Na Rb Tb. unfold path_ltb, path_key.
  pose proof Pa as Pa'. pose proof Pb as Pb'. unfold parsed in Pa', Pb'.
  apply andb_true_iff in Pa' as [Ra _]. apply andb_true_iff in Pb' as [_ Cb].
  destruct (tail b) as [|c t] eqn:Eb; [congruence|].
  cbn [forallb] in Cb. apply andb_true_iff in Cb as [Cc _].
  destruct python_3_12.
  - rewrite (parts_normcase_parsed a Pa), (parts_normcase_parsed b Pb), Rb, Eb.
    assert (K : exists k, List.map (fun _ : codepoint => @nil codepoint) (root a)
                          ++ match tail a with
                             | [] => [match root a with [] => [DOT] | _ => [] end]
                             | x :: l => x :: l
                             end = [] :: k).
    { destruct (root a) as [|x r]; [congruence|]. eexists. reflexivity. }
    destruct K as [k ->]. cbn [List.map app hd].
    destruct c as [|x c]; [discriminate Cc|]. split; reflexivity.
  - unfold cparts. rewrite Rb, Eb. destruct (root a) as [|x r] eqn:Ea; [congruence|].
    unfold parts_ltb. cbn [lex_ltb hd].
    rewrite (component_is_no_root (x :: r) c Ra Na Cc).
    assert (S : PyStr.eqb c (x :: r) = false).
    { destruct (PyStr.eqb c (x :: r)) eqn:E; [|reflexivity].
      apply eqb_eq in E. subst c.
      pose proof (component_is_no_root _ _ Ra Na Cc) as F.
      rewrite eqb_refl in F. discriminate. }
    rewrite S. split; reflexivity.
Qed.

(** X23.  On a loaded document inspected without exception up to some
    output of a code cell: when that output is tagged [error] and its
    [evalue] is an object, [check_saved_outputs] raises [KeyError] from
    CPython 3.12 on and [TypeError] before, whatever the [ename]. *)
Theorem check_saved_outputs_object_evalue :
  forall (w : World) (path : Path) (notebook : json)
         (pre : list json) (c : json) (post : list json)
         (outs_before : list json) (o : json) (outs_after : list json)
         (d : list (pystr * json))
         (found_before found_in_cell : list descriptor),
    load w path = inr notebook ->
    cells_of notebook = inr (pre ++ c :: post) ->
    check_cells 1 pre [] = inr found_before ->
    is_code_cell c = true ->
    outputs_of c = inr (outs_before ++ o :: outs_after) ->
    check_outputs (1 + List.length pre) outs_before found_before = inr found_in_cell ->
    o = JDict d ->
    is_error_output o = true ->
    is_dict (dict_get d (py "evalue") (JStr [])) = true ->
    check_saved_outputs w path = inl (if python_3_12 then KeyError else TypeError).
Proof.
  intros w path notebook pre c post ob o oa d e1 e2 L C P Hc Ho Pb -> He Hd.
  rewrite (check_saved_outputs_loaded w path notebook L), (inspect_cells _ _ C).
  rewrite check_cells_app, P. cbn [bind]. rewrite check_cells_cons, Hc, Ho.
  assert (G : exists t, get c (py "cell_type") JNull = inr t).
  { unfold is_code_cell in Hc.
    destruct (get c (py "cell_type") JNull) as [e | t]; [discriminate | exists t; reflexivity]. }
  destruct G as [t ->]. cbn [bind].
  rewrite check_outputs_app, Pb. cbn [bind]. rewrite check_outputs_cons, He.
  simpl get. cbv iota.
  unfold describe. simpl get. cbn [bind].
  destruct (dict_get d (py "evalue") (JStr [])); try discriminate Hd. reflexivity.
Qed.

End Versions.

Lemma absolute_and_relative_paths_witness :
  path_ltb (RT := scripted_on false all_pass)
           (Path_of (py "-x.ipynb")) (Path_of (py "/tmp/zz/a.ipynb")) = true
  /\ path_ltb (RT := scripted all_pass)
              (Path_of (py "-x.ipynb")) (Path_of (py "/tmp/zz/a.ipynb")) = false.
Proof.
  split.
  - destruct (absolute_and_relative_paths (RT := scripted_on false all_pass)
                (Path_of (py "/tmp/zz/a.ipynb")) (Path_of (py "-x.ipynb")))
      as [_ H]; [reflexivity | reflexivity | discriminate | reflexivity | discriminate |].
    exact H.
  - destruct (absolute_and_relative_paths (RT := scripted all_pass)
                (Path_of (py "/tmp/zz/a.ipynb")) (Path_of (py "-x.ipynb")))
      as [_ H]; [reflexivity | reflexivity | discriminate | reflexivity | discriminate |].
    exact H.
Defined.

Lemma check_saved_outputs_object_evalue_witness :
  check_saved_outputs (RT := scripted_on false object_notebooks) 0 (Path_of (py "dict.ipynb"))
  = inl TypeError.
Proof.
  apply (check_saved_outputs_object_evalue (RT := scripted_on false object_notebooks)
           0 (Path_of (py "dict.ipynb")) object_evalue_notebook
           [] (JDict [(py "cell_type", JStr (py "code"));
                      (py "outputs", JList [object_evalue])]) []
           [] object_evalue []
           [(py "output_type", JStr (py "error"));
            (py "ename", JStr (py "ValueError"));
            (py "evalue", JDict [])] [] []);
    reflexivity.
Defined.
